(** * navivolo-staking: the backend [backend/navi_volo_api.py]

    A shallow embedding of the four components of the service (synthetic
    history generator, pool fetcher, rewards fetcher, stake predictor) and of
    its three HTTP endpoints, with the properties of the specification stated
    and settled against it.

    Conventions of the embedding.
    - Python values coming from JSON are the inductive [pyval]; a dict is an
      association list read with [dict_get] (first binding of a key; the
      dicts [json.loads] builds bind a key once).
    - An exception is a value of [exn]; a computation that may raise is in the
      monad [result]; a [try ... except Exception] block is a [match] on it.
    - Python floats are binary64.  The code is written once over the
      interface [FloatArith]; the properties are stated for every instance or
      for [binary64] (the kernel's primitive floats, what the interpreter
      computes).  The second instance, [exact] (the rationals), serves the
      flat series only, where a margin of 10% separates the two sides of the
      comparison.
    - A str is held as its UTF-8 encoding; [float] reads its code points.
    - The outcome of the outbound HTTP call, the clock and the local time zone
      are inputs ([upstream], [Env]). *)

From Stdlib Require Import ZArith QArith List String Ascii Bool Lia Lqa Floats.
From Stdlib Require Import DecimalString.
Import ListNotations.

Set Implicit Arguments.
Set Warnings "-register-all,-inexact-float".
Local Open Scope string_scope.
Local Open Scope Z_scope.

(** ** Exceptions and the error monad *)

Inductive exn : Type :=
| TypeError
| ValueError
| OverflowError
| ZeroDivisionError
| AttributeError
| KeyError
| IndexError
| ValidationError        (* jsonschema.ValidationError *)
| BadRequest             (* werkzeug: the request body is not JSON *)
| ClientError.           (* aiohttp: connection failure, timeout, undecodable body *)

Inductive result (A : Type) : Type :=
| Ok (a : A)
| Raise (e : exn).
Arguments Ok {A} a.
Arguments Raise {A} e.

Definition bind {A B : Type} (c : result A) (k : A -> result B) : result B :=
  match c with
  | Ok a => k a
  | Raise e => Raise e
  end.

Declare Scope py_scope.
Delimit Scope py_scope with py.
Notation "x <- c ;; k" := (bind c (fun x => k))
  (at level 61, c at next level, right associativity) : py_scope.
Notation "c ;;; k" := (bind c (fun _ => k))
  (at level 61, right associativity) : py_scope.
Local Open Scope py_scope.

Fixpoint mapM {A B : Type} (f : A -> result B) (l : list A) : result (list B) :=
  match l with
  | [] => Ok []
  | a :: l' => b <- f a ;; bs <- mapM f l' ;; Ok (b :: bs)
  end.

(** ** Python floats *)

Inductive special : Type := Inf (negative : bool) | NaN.

(** The operations of [float] the program uses.  [of_decimal neg m e] is the
    value of the decimal literal [m]e[e] with sign [neg]; [of_int] is the
    conversion of an int operand, which raises OverflowError exactly when
    [int_fits] is false; [int_truediv a b] is [a / b] on two ints with
    [b <> 0] ([None]: OverflowError); [ftrunc] is [int(x)]. *)
Class FloatArith (F : Type) : Type := {
  fadd : F -> F -> F;
  fsub : F -> F -> F;
  fmul : F -> F -> F;
  fdiv : F -> F -> F;
  fgt : F -> F -> bool;
  fzero : F -> bool;
  of_int : Z -> F;
  int_fits : Z -> bool;
  of_decimal : bool -> Z -> Z -> F;
  int_truediv : Z -> Z -> option F;
  ftrunc : F -> result Z;
  of_special : special -> option F
}.

Declare Scope pyfloat_scope.
Delimit Scope pyfloat_scope with F.
Notation "x + y" := (fadd x y) : pyfloat_scope.
Notation "x - y" := (fsub x y) : pyfloat_scope.
Notation "x * y" := (fmul x y) : pyfloat_scope.
Notation "x / y" := (fdiv x y) : pyfloat_scope.
Notation "x >? y" := (fgt x y) : pyfloat_scope.

(** A positive decimal literal [m]e[e], as in [0.01 = lit 1 (-2)]. *)
Definition lit {F : Type} `{FloatArith F} (m e : Z) : F := of_decimal false m e.

(** *** binary64 *)

Module Binary64.

Definition round_int (neg : bool) (m : Z) : spec_float :=
  binary_normalize prec emax (if neg then - m else m) 0 neg.

(** The correctly rounded quotient of two positive integers. *)
Definition round_quot (neg : bool) (a b : positive) : spec_float :=
  SFdiv prec emax (S754_finite neg a 0) (S754_finite false b 0).

(** 1.0 *)
Definition SF_one : spec_float := S754_finite false 4503599627370496 (-52).

Definition finite (x : spec_float) : bool :=
  match x with
  | S754_infinity _ | S754_nan => false
  | _ => true
  end.

Definition b64_of_int (z : Z) : float := SF2Prim (round_int false z).

Definition b64_int_fits (z : Z) : bool := finite (round_int false z).

Definition b64_of_decimal (neg : bool) (m e : Z) : float :=
  match m with
  | Zpos p =>
      match e with
      | Zneg k => SF2Prim (round_quot neg p (Pos.pow 10 k))
      | _ => SF2Prim (round_int neg (m * 10 ^ e))
      end
  | Z0 => if neg then neg_zero else zero
  | Zneg _ => nan          (* not a literal: the digits of a literal are not negative *)
  end.

Definition b64_int_truediv (a b : Z) : option float :=
  match a, b with
  | Z0, _ => Some zero
  | _, Z0 => None
  | _, _ =>
      let q := round_quot (xorb (a <? 0) (b <? 0)) (Z.to_pos (Z.abs a)) (Z.to_pos (Z.abs b)) in
      if finite q then Some (SF2Prim q) else None
  end.

Definition b64_trunc (x : float) : result Z :=
  match Prim2SF x with
  | S754_zero _ => Ok 0
  | S754_finite s m e =>
      let a := match e with
               | Zneg k => Zpos m / 2 ^ Zpos k
               | _ => Zpos m * 2 ^ e
               end in
      Ok (if s then - a else a)
  | S754_infinity _ => Raise OverflowError
  | S754_nan => Raise ValueError
  end.

Definition b64_special (s : special) : option float :=
  match s with
  | Inf true => Some neg_infinity
  | Inf false => Some infinity
  | NaN => Some nan
  end.

#[export] Instance binary64 : FloatArith float := {
  fadd := PrimFloat.add;
  fsub := PrimFloat.sub;
  fmul := PrimFloat.mul;
  fdiv := PrimFloat.div;
  fgt := fun x y => PrimFloat.ltb y x;
  fzero := fun x => PrimFloat.eqb x zero;
  of_int := b64_of_int;
  int_fits := b64_int_fits;
  of_decimal := b64_of_decimal;
  int_truediv := b64_int_truediv;
  ftrunc := b64_trunc;
  of_special := b64_special
}.

End Binary64.

(** *** exact rationals

    Arithmetic without rounding.  It is not what the interpreter computes:
    a property read at this instance says so. *)

Module Exact.

Definition q_of_decimal (neg : bool) (m e : Z) : Q :=
  let v := match e with
           | Zneg k => Qmake m (Pos.pow 10 k)
           | _ => inject_Z (m * 10 ^ e)
           end in
  if neg then Qopp v else v.

Definition q_trunc (x : Q) : result Z := Ok (Z.quot (Qnum x) (Zpos (Qden x))).

#[export] Instance exact : FloatArith Q := {
  fadd := Qplus;
  fsub := Qminus;
  fmul := Qmult;
  fdiv := Qdiv;
  fgt := fun x y => negb (Qle_bool x y);
  fzero := fun x => Qeq_bool x 0;
  of_int := inject_Z;
  int_fits := fun _ => true;
  of_decimal := q_of_decimal;
  int_truediv := fun a b => Some (Qdiv (inject_Z a) (inject_Z b));
  ftrunc := q_trunc;
  of_special := fun _ => None
}.

End Exact.

Import Binary64 Exact.

(** ** Strings

    A [str] is held as its UTF-8 encoding, one [ascii] for each byte (a lone
    surrogate, which [json.loads] can produce, as its three bytes).  Equality
    and [endswith] on two strs are equality and "ends with" on their
    encodings.  [characters] cuts an encoding into its code points: a byte
    with the continuation bytes that follow it. *)

Definition code (c : ascii) : Z := Z.of_nat (nat_of_ascii c).

Definition is_continuation (c : ascii) : bool := (128 <=? code c) && (code c <? 192).

Fixpoint characters_of (l : list ascii) : list (list ascii) :=
  match l with
  | [] => []
  | c :: l' =>
      match characters_of l' with
      | (d :: ch) :: rest =>
          if is_continuation d then (c :: d :: ch) :: rest else [c] :: (d :: ch) :: rest
      | rest => [c] :: rest
      end
  end.

Definition characters (s : string) : list (list ascii) :=
  characters_of (list_ascii_of_string s).

(** The six low bits of a continuation byte. *)
Definition low_bits (b : Z) : option Z :=
  if (128 <=? b) && (b <? 192) then Some (b - 128) else None.

Definition in_range (lo hi : Z) (cp : option Z) : option Z :=
  match cp with
  | Some n => if (lo <=? n) && (n <=? hi) then cp else None
  | None => None
  end.

(** The code point that the bytes [ch] encode: one to four bytes, in the
    shortest form. *)
Definition code_point (ch : list ascii) : option Z :=
  match map code ch with
  | [a] => if a <? 128 then Some a else None
  | [a; b] =>
      if (192 <=? a) && (a <? 224) then
        in_range 128 2047 (option_map (fun x => 64 * (a - 192) + x) (low_bits b))
      else None
  | [a; b; c] =>
      if (224 <=? a) && (a <? 240) then
        in_range 2048 65535
          match low_bits b, low_bits c with
          | Some x, Some y => Some (4096 * (a - 224) + 64 * x + y)
          | _, _ => None
          end
      else None
  | [a; b; c; d] =>
      if (240 <=? a) && (a <? 248) then
        in_range 65536 1114111
          match low_bits b, low_bits c, low_bits d with
          | Some x, Some y, Some z => Some (262144 * (a - 240) + 4096 * x + 64 * y + z)
          | _, _, _ => None
          end
      else None
  | _ => None
  end.

(** The code points above ASCII that [str.isspace] accepts. *)
Definition unicode_space (cp : Z) : bool :=
  existsb (Z.eqb cp) [133; 160; 5760; 8232; 8233; 8239; 8287; 12288]
  || ((8192 <=? cp) && (cp <=? 8202)).

(** The digit zero of each script of decimal digits (general category Nd)
    in the Unicode database 14.0 of CPython 3.11; the digits 1 to 9 of a
    script follow its zero. *)
Definition DECIMAL_ZEROS : list Z :=
  [1632; 1776; 1984; 2406; 2534; 2662; 2790; 2918; 3046; 3174; 3302; 3430; 3558;
   3664; 3792; 3872; 4160; 4240; 6112; 6160; 6470; 6608; 6784; 6800; 6992; 7088;
   7232; 7248; 42528; 43216; 43264; 43472; 43504; 43600; 44016; 65296; 66720;
   68912; 69734; 69872; 69942; 70096; 70384; 70736; 70864; 71248; 71360; 71472;
   71904; 72016; 72784; 73040; 73120; 92768; 92864; 93008; 120782; 120792;
   120802; 120812; 120822; 123200; 123632; 125264; 130032].

(** The value of a decimal digit above ASCII. *)
Definition unicode_decimal (cp : Z) : option Z :=
  match find (fun z => (z <=? cp) && (cp <=? z + 9)) DECIMAL_ZEROS with
  | Some z => Some (cp - z)
  | None => None
  end.

(** ** Python values *)

Section Program.

Context {F : Type} `{FloatArith F}.

(** What [json.loads] produces, and what the program builds from it. *)
Inductive pyval : Type :=
| PyNone
| PyBool (b : bool)
| PyInt (z : Z)
| PyFloat (x : F)
| PyStr (s : string)
| PyList (l : list pyval)
| PyDict (d : list (string * pyval)).

Definition dict := list (string * pyval).

(** [d.get(key, default)] on a dict. *)
Fixpoint dict_get (d : dict) (key : string) (default : pyval) : pyval :=
  match d with
  | [] => default
  | (k, v) :: d' => if String.eqb k key then v else dict_get d' key default
  end.

Fixpoint dict_mem (d : dict) (key : string) : bool :=
  match d with
  | [] => false
  | (k, _) :: d' => String.eqb k key || dict_mem d' key
  end.

(** [v.get(key, default)]: only a dict has the attribute [get]. *)
Definition py_get (v : pyval) (key : string) (default : pyval) : result pyval :=
  match v with
  | PyDict d => Ok (dict_get d key default)
  | _ => Raise AttributeError
  end.

(** [v == s] for a str [s]. *)
Definition py_eq_str (v : pyval) (s : string) : bool :=
  match v with
  | PyStr s' => String.eqb s' s
  | _ => false
  end.

(** Truth value of a value, as [not v] reads it. *)
Definition py_truthy (v : pyval) : bool :=
  match v with
  | PyNone => false
  | PyBool b => b
  | PyInt z => negb (z =? 0)
  | PyFloat x => negb (fzero x)
  | PyStr s => negb (String.eqb s "")
  | PyList l => match l with [] => false | _ => true end
  | PyDict d => match d with [] => false | _ => true end
  end.

(** [v[:2]], evaluated by the debug log of both fetchers (on a dict the
    error is a KeyError from Python 3.12 on). *)
Definition py_slice2 (v : pyval) : result pyval :=
  match v with
  | PyList l => Ok (PyList (firstn 2 l))
  | PyStr s => Ok (PyStr (string_of_list_ascii (List.concat (firstn 2 (characters s)))))
  | _ => Raise TypeError
  end.

(** The elements [for x in v] visits. *)
Definition py_iter (v : pyval) : result (list pyval) :=
  match v with
  | PyList l => Ok l
  | PyStr s => Ok (map (fun ch => PyStr (string_of_list_ascii ch)) (characters s))
  | PyDict d => Ok (map (fun kv => PyStr (fst kv)) d)
  | _ => Raise TypeError
  end.

(** [str(z)] for an int. *)
Definition str_of_int (z : Z) : string := NilZero.string_of_int (Z.to_int z).

(** *** [str.endswith] *)

Definition endswith (s suffix : string) : bool :=
  let n := String.length s in
  let k := String.length suffix in
  (k <=? n)%nat && String.eqb (substring (n - k) k s) suffix.

Definition py_endswith (v : pyval) (suffix : string) : result bool :=
  match v with
  | PyStr s => Ok (endswith s suffix)
  | _ => Raise AttributeError
  end.

(** *** [float(...)] *)

(** What [float] reads of a code point of its argument: an ASCII character
    as it is, a Unicode space as a space, a Unicode decimal digit as the ASCII
    digit of its value; any other code point is an error. *)
Definition to_ascii (cp : Z) : option ascii :=
  if cp <? 127 then Some (ascii_of_nat (Z.to_nat cp))
  else if unicode_space cp then Some " "%char
  else option_map (fun d => ascii_of_nat (Z.to_nat (48 + d))) (unicode_decimal cp).

Fixpoint transform (chs : list (list ascii)) : option (list ascii) :=
  match chs with
  | [] => Some []
  | ch :: rest =>
      match code_point ch with
      | Some cp =>
          match to_ascii cp, transform rest with
          | Some c, Some l => Some (c :: l)
          | _, _ => None
          end
      | None => None
      end
  end.

Definition is_space (c : ascii) : bool :=
  let n := code c in (n =? 32) || ((9 <=? n) && (n <=? 13)).

Definition digit_of (c : ascii) : option Z :=
  let n := code c in if (48 <=? n) && (n <=? 57) then Some (n - 48) else None.

Definition lower (c : ascii) : Z :=
  let n := code c in if (65 <=? n) && (n <=? 90) then n + 32 else n.

Fixpoint lstrip (l : list ascii) : list ascii :=
  match l with
  | c :: l' => if is_space c then lstrip l' else l
  | [] => []
  end.

Definition strip (l : list ascii) : list ascii := rev (lstrip (rev (lstrip l))).

(** [digit (["_"] digit)*]: the value [v] extended by the digits read, the
    number [n] of digits read, and what follows them. *)
Fixpoint digitpart (v n : Z) (l : list ascii) : Z * Z * list ascii :=
  match l with
  | [] => (v, n, [])
  | c :: l' =>
      match digit_of c with
      | Some d => digitpart (10 * v + d) (n + 1) l'
      | None =>
          if (code c =? 95) && (0 <? n) then
            match l' with
            | c' :: l'' =>
                match digit_of c' with
                | Some d => digitpart (10 * v + d) (n + 1) l''
                | None => (v, n, l)
                end
            | [] => (v, n, l)
            end
          else (v, n, l)
      end
  end.

Definition sign_of (l : list ascii) : bool * list ascii :=
  match l with
  | c :: l' => if code c =? 45 then (true, l') else if code c =? 43 then (false, l') else (false, l)
  | [] => (false, [])
  end.

(** [digitpart ["." [digitpart]] | "." digitpart], then an optional exponent:
    the digits [m] and the decimal exponent [e] of the number. *)
Definition decimal_of (l : list ascii) : option (Z * Z) :=
  let '(vi, ni, l1) := digitpart 0 0 l in
  let '(v, nf, l2) :=
    match l1 with
    | c :: r => if code c =? 46 then digitpart vi 0 r else (vi, 0, l1)
    | [] => (vi, 0, l1)
    end in
  if ni + nf =? 0 then None
  else
    match l2 with
    | [] => Some (v, - nf)
    | c :: r =>
        if lower c =? 101 then
          let '(neg, r') := sign_of r in
          let '(ve, ne, l3) := digitpart 0 0 r' in
          match l3 with
          | [] => if ne =? 0 then None else Some (v, (if neg then - ve else ve) - nf)
          | _ => None
          end
        else None
    end.

Definition special_of (l : list ascii) : option (bool -> special) :=
  let w := map lower l in
  if list_eq_dec Z.eq_dec w [105; 110; 102] then Some Inf
  else if list_eq_dec Z.eq_dec w [105; 110; 102; 105; 110; 105; 116; 121] then Some Inf
  else if list_eq_dec Z.eq_dec w [110; 97; 110] then Some (fun _ => NaN)
  else None.

(** [float(s)] on a str: the code points are brought to ASCII, the ASCII
    spaces around are dropped, and what is left is a signed "inf",
    "infinity" or "nan" in any case, or a signed decimal number. *)
Definition float_of_string (s : string) : option F :=
  match transform (characters s) with
  | Some t =>
      let '(neg, l) := sign_of (strip t) in
      match special_of l with
      | Some sp => of_special (sp neg)
      | None =>
          match decimal_of l with
          | Some (m, e) => Some (of_decimal neg m e)
          | None => None
          end
      end
  | None => None
  end.

Definition float_of_int (z : Z) : result F :=
  if int_fits z then Ok (of_int z) else Raise OverflowError.

Definition py_float (v : pyval) : result F :=
  match v with
  | PyFloat x => Ok x
  | PyInt z => float_of_int z
  | PyBool b => Ok (of_int (if b then 1 else 0))
  | PyStr s =>
      match float_of_string s with
      | Some x => Ok x
      | None => Raise ValueError
      end
  | PyNone | PyList _ | PyDict _ => Raise TypeError
  end.

(** *** [x / y] *)

Definition as_number (v : pyval) : option (Z + F) :=
  match v with
  | PyInt z => Some (inl z)
  | PyBool b => Some (inl (if b then 1 else 0))
  | PyFloat x => Some (inr x)
  | _ => None
  end.

Definition operand (n : Z + F) : result F :=
  match n with
  | inl z => float_of_int z
  | inr x => Ok x
  end.

(** True division: two ints give the correctly rounded quotient, otherwise
    the int operand is converted; a str, None, list or dict operand is a
    TypeError. *)
Definition py_truediv (x y : pyval) : result F :=
  match as_number x, as_number y with
  | Some (inl a), Some (inl b) =>
      if b =? 0 then Raise ZeroDivisionError
      else match int_truediv a b with
           | Some q => Ok q
           | None => Raise OverflowError
           end
  | Some a, Some b =>
      fa <- operand a ;;
      fb <- operand b ;;
      if fzero fb then Raise ZeroDivisionError else Ok (fa / fb)%F
  | _, _ => Raise TypeError
  end.

(** ** Clock, time zone and [datetime] *)

(** [now_ms] is [int(datetime.now().timestamp() * 1000)]; [utcoffset t] is the
    offset in seconds of local time from UTC at the instant [t] (seconds since
    the epoch). *)
Record Env : Type := { now_ms : Z; utcoffset : Z -> Z }.

Context (env : Env).

(** A naive [datetime]: microseconds since 0001-01-01 00:00:00
    ([datetime.min]); [datetime.max] is 9999-12-31 23:59:59.999999. *)
Definition datetime : Type := Z.

Definition US_PER_DAY : Z := 86400000000.
Definition EPOCH_DAYS : Z := 719162.             (* 1970-01-01 - 0001-01-01 *)
Definition MAX_US : Z := 315537897599999999.     (* 3652059 days, less a microsecond *)

Definition in_datetime_range (us : Z) : bool := (0 <=? us) && (us <=? MAX_US).

(** Local time at the instant [t], in microseconds since [datetime.min]. *)
Definition local_us (t : Z) : Z := (EPOCH_DAYS * 86400 + t + utcoffset env t) * 1000000.

(** [datetime.fromtimestamp(t)] for an int [t]: a year outside 1..9999 is an
    error, and so is one before year 1 at the instant, a day earlier, that
    is probed to detect a repeated hour. *)
Definition fromtimestamp (t : Z) : result datetime :=
  if in_datetime_range (local_us t) && (0 <=? local_us (t - 86400))
  then Ok (local_us t) else Raise ValueError.

(** [timedelta(days=i)], in microseconds. *)
Definition timedelta_days (i : Z) : result Z :=
  if Z.abs i <=? 999999999 then Ok (i * US_PER_DAY) else Raise OverflowError.

(** [d - td]. *)
Definition datetime_sub (d : datetime) (td : Z) : result datetime :=
  if in_datetime_range (d - td) then Ok (d - td) else Raise OverflowError.

(** [range(n)]. *)
Fixpoint range_from (i : Z) (n : nat) : list Z :=
  match n with
  | O => []
  | S n' => i :: range_from (i + 1) n'
  end.

Definition range (n : Z) : list Z := range_from 0 (Z.to_nat n).

(** ** Data frames *)

Record row : Type := {
  timestamp : option datetime;
  apr : pyval;
  tvl : pyval;
  sui_price : pyval
}.

(** A frame is the list of its records ([df.to_dict('records')]). *)
Definition DataFrame : Type := list row.

(** [pd.DataFrame({"timestamp": ts, "apr": a, "tvl": t, "sui_price": p})]:
    columns of different lengths are a ValueError. *)
Definition pd_DataFrame (ts : list datetime) (a t p : list F) : result DataFrame :=
  if ((List.length a =? List.length ts) && (List.length t =? List.length ts)
      && (List.length p =? List.length ts))%nat
  then Ok (map (fun r : datetime * F * (F * F) =>
                  let '(x, y, (z, w)) := r in
                  {| timestamp := Some x; apr := PyFloat y; tvl := PyFloat z; sui_price := PyFloat w |})
               (combine (combine ts a) (combine t p)))
  else Raise ValueError.

(** [df[col][0]]: a KeyError on an empty frame. *)
Definition at0 (col : row -> pyval) (df : DataFrame) : result pyval :=
  match df with
  | r :: _ => Ok (col r)
  | [] => Raise KeyError
  end.

(** ** Synthetic history generator *)

(** Lines 39-42: [base_time], [base_apr], [base_tvl], [base_price]. *)
Definition snapshot_fields (latest_data : pyval) : result (datetime * F * F * F) :=
  ts <- py_get latest_data "lastUpdateTimestamp" (PyStr (str_of_int (now_ms env))) ;;
  q <- py_truediv ts (PyInt 1000) ;;
  n <- ftrunc q ;;
  base_time <- fromtimestamp n ;;
  info <- py_get latest_data "supplyIncentiveApyInfo" (PyDict []) ;;
  apy <- py_get info "apy" (PyFloat (lit 4908 (-3))) ;;                (* 4.908 *)
  base_apr <- py_float apy ;;
  supply <- py_get latest_data "totalSupplyAmount" (PyInt 52969686454591258) ;;
  supply_f <- py_float supply ;;
  let base_tvl := (supply_f / lit 1 9)%F in                             (* / 1e9 *)
  oracle <- py_get latest_data "oracle" (PyDict []) ;;
  price <- py_get oracle "price" (PyFloat (lit 434833514 (-8))) ;;      (* 4.34833514 *)
  base_price <- py_float price ;;
  Ok (base_time, base_apr, base_tvl, base_price).

(** The perturbation factors of day [i]: [1 + 0.01 * (i % 5)],
    [1 - 0.005 * (i % 7)] and [1 + 0.02 * (i % 3)]; the int operands are
    converted to float. *)
Definition apr_factor (i : Z) : F := (of_int 1 + lit 1 (-2) * of_int (i mod 5))%F.
Definition tvl_factor (i : Z) : F := (of_int 1 - lit 5 (-3) * of_int (i mod 7))%F.
Definition price_factor (i : Z) : F := (of_int 1 + lit 2 (-2) * of_int (i mod 3))%F.

Definition simulate_historical_data (latest_data : pyval) (days : Z) : option DataFrame :=
  match
    (b <- snapshot_fields latest_data ;;
     let '(base_time, base_apr, base_tvl, base_price) := b in
     ts <- mapM (fun i => td <- timedelta_days i ;; datetime_sub base_time td) (range days) ;;
     pd_DataFrame ts
       (map (fun i => (base_apr * apr_factor i)%F) (range days))
       (map (fun i => (base_tvl * tvl_factor i)%F) (range days))
       (map (fun i => (base_price * price_factor i)%F) (range days)))
  with
  | Ok df => Some df
  | Raise _ => None          (* except Exception: return None *)
  end.

(** ** The upstream API *)

(** The outcome of [session.get(url, timeout=10)]: the call raises, or a
    response arrives with a status and a body that [response.json()] decodes
    or fails to decode. *)
Inductive upstream : Type :=
| Unreachable (e : exn)
| Response (status : Z) (json : result pyval).

(** ** Pool data fetcher *)

Inductive volo_error : Type :=
| HttpError (status : Z)           (* "無法獲取Navi Pools數據: HTTP {status}" *)
| SimulationFailed                 (* "數據模擬失敗" *)
| DefaultSimulationFailed          (* "預設數據模擬失敗" *)
| FetchFailed (e : exn).           (* "獲取數據失敗: {str(e)}" *)

Record Latest : Type := {
  latest_apr : F;
  latest_tvl : F;
  latest_sui_price : F;
  latest_timestamp : pyval
}.

Inductive volo_body : Type :=
| VoloError (e : volo_error)                            (* {"error": ...} *)
| VoloData (latest : Latest) (historical : DataFrame).  (* {"latest": ..., "historical": ...} *)

(** Lines 69-81: the entry [pool] matched. *)
Definition matched_pool (pool : pyval) (days : Z) : result (volo_body * Z) :=
  match simulate_historical_data pool days with
  | None => Ok (VoloError SimulationFailed, 500)
  | Some df =>
      at0 apr df ;;; at0 tvl df ;;;                        (* logger.info(... df['apr'][0] ... df['tvl'][0]) *)
      info <- py_get pool "supplyIncentiveApyInfo" (PyDict []) ;;
      apy <- py_get info "apy" (PyFloat (lit 4908 (-3))) ;;
      a <- py_float apy ;;
      supply <- py_get pool "totalSupplyAmount" (PyInt 52969686454591258) ;;
      supply_f <- py_float supply ;;
      oracle <- py_get pool "oracle" (PyDict []) ;;
      price <- py_get oracle "price" (PyFloat (lit 434833514 (-8))) ;;
      p <- py_float price ;;
      ts <- py_get pool "lastUpdateTimestamp" (PyStr (str_of_int (now_ms env))) ;;
      Ok (VoloData {| latest_apr := a; latest_tvl := (supply_f / lit 1 9)%F;
                      latest_sui_price := p; latest_timestamp := ts |} df, 200)
  end.

(** Lines 83-88. *)
Definition default_data : pyval :=
  PyDict [("lastUpdateTimestamp", PyStr (str_of_int (now_ms env)));
          ("supplyIncentiveApyInfo", PyDict [("apy", PyStr "4.908")]);
          ("totalSupplyAmount", PyStr "52969686454591258");
          ("oracle", PyDict [("price", PyStr "4.34833514")])].

(** Lines 82-101: no entry matched. *)
Definition default_pool (days : Z) : result (volo_body * Z) :=
  match simulate_historical_data default_data days with
  | None => Ok (VoloError DefaultSimulationFailed, 500)
  | Some df =>
      ts <- py_get default_data "lastUpdateTimestamp" PyNone ;;
      Ok (VoloData {| latest_apr := lit 4908 (-3);
                      latest_tvl := (of_int 52969686454591258 / lit 1 9)%F;
                      latest_sui_price := lit 434833514 (-8);
                      latest_timestamp := ts |} df, 200)
  end.

(** Lines 67-101: the loop over the entries, then the fallback. *)
Fixpoint scan_pools (pool_id : string) (days : Z) (data : list pyval) : result (volo_body * Z) :=
  match data with
  | [] => default_pool days
  | pool :: rest =>
      ct <- py_get pool "coinType" PyNone ;;
      if py_eq_str ct pool_id then matched_pool pool days
      else scan_pools pool_id days rest
  end.

Definition fetch_volo_data (up : upstream) (pool_id : string) (days : Z) : volo_body * Z :=
  match up with
  | Unreachable e => (VoloError (FetchFailed e), 500)
  | Response status json =>
      if negb (status =? 200) then (VoloError (HttpError status), 500)
      else
        match (data <- json ;;
               py_slice2 data ;;;                        (* logger.debug(... data[:2]) *)
               pools <- py_iter data ;;
               scan_pools pool_id days pools)
        with
        | Ok r => r
        | Raise e => (VoloError (FetchFailed e), 500)
        end
  end.

(** ** Rewards fetcher *)

Record RewardRecord : Type := {
  amount : F;
  reward_timestamp : pyval;
  token_price : F
}.

(** The condition of the comprehension (line 125). *)
Definition reward_selected (pool_id : string) (reward : pyval) : result bool :=
  p <- py_get reward "pool" (PyStr "") ;;
  if py_eq_str p pool_id then
    ct <- py_get reward "coin_type" (PyStr "") ;;
    py_endswith ct "::navx::NAVX"
  else Ok false.

(** The element of the comprehension (lines 119-123). *)
Definition reward_record (reward : pyval) : result RewardRecord :=
  a <- py_get reward "amount" (PyInt 0) ;;
  a_f <- py_float a ;;
  ts <- py_get reward "timestamp" (PyStr "") ;;
  tp <- py_get reward "token_price" (PyFloat (lit 144426003098488 (-15))) ;;   (* 0.144426003098488 *)
  tp_f <- py_float tp ;;
  Ok {| amount := (a_f / lit 1 9)%F; reward_timestamp := ts; token_price := tp_f |}.

Fixpoint collect_rewards (pool_id : string) (data : list pyval) : result (list RewardRecord) :=
  match data with
  | [] => Ok []
  | reward :: rest =>
      sel <- reward_selected pool_id reward ;;
      if sel then
        r <- reward_record reward ;;
        rs <- collect_rewards pool_id rest ;;
        Ok (r :: rs)
      else collect_rewards pool_id rest
  end.

Definition fetch_rewards (up : upstream) (user_address pool_id : string) : list RewardRecord * Z :=
  match up with
  | Unreachable _ => ([], 200)
  | Response status json =>
      if negb (status =? 200) then ([], 200)
      else
        match (data <- json ;;
               py_slice2 data ;;;                        (* logger.debug(... data[:2]) *)
               rewards <- py_iter data ;;
               collect_rewards pool_id rewards)
        with
        | Ok rewards => (rewards, 200)
        | Raise _ => ([], 200)
        end
  end.

(** ** Stake predictor *)

(** The numeric libraries the predictor calls: scikit-learn's
    [LinearRegression] and pandas' [Series.mean].  They are not part of the
    repository; the predictor is written against this interface. *)
Class LinearModels : Type := {
  lr_model : Type;
  lr_fit : list (pyval * pyval) -> list pyval -> result lr_model;
  lr_predict : lr_model -> list (pyval * pyval) -> result (list F);
  series_mean : list pyval -> result F
}.

Context {lib : LinearModels}.

(** [l[-1:]]. *)
Definition last_slice {A : Type} (l : list A) : list A := skipn (List.length l - 1) l.

(** [a[0]] on an array. *)
Definition index0 {A : Type} (l : list A) : result A :=
  match l with
  | a :: _ => Ok a
  | [] => Raise IndexError
  end.

Definition predict_optimal_stake (df : option DataFrame) : bool :=
  match df with
  | None => false
  | Some df =>
      if (List.length df <? 5)%nat then false
      else
        match
          (let X := map (fun r => (sui_price r, tvl r)) df in
           let y := map apr df in
           model <- lr_fit X y ;;
           predicted_apr <- lr_predict model (last_slice X) ;;
           avg_apr <- series_mean y ;;
           p0 <- index0 predicted_apr ;;
           Ok (p0 >? avg_apr * lit 11 (-1))%F)                  (* predicted_apr[0] > avg_apr * 1.1 *)
        with
        | Ok b => b
        | Raise _ => false       (* except Exception: return False *)
        end
  end.

(** ** Endpoints *)

Definition get_volo_data (up : upstream) : volo_body * Z :=
  fetch_volo_data up "0x2::sui::SUI" 30.

Inductive rewards_body : Type :=
| RewardsError                               (* {"error": "缺少user_address參數"} *)
| Rewards (rewards : list RewardRecord).

Definition REWARDS_POOL : string :=
  "0x96df0fce3c471489f4debaaa762cf960b3d97820bd1f3f025ff8190730e958c5".

(** [user_address] is [request.args.get("user_address")]. *)
Definition get_rewards (user_address : option string) (up : upstream) : rewards_body * Z :=
  match user_address with
  | None => (RewardsError, 400)
  | Some a =>
      if String.eqb a "" then (RewardsError, 400)
      else
        let '(rewards, status) := fetch_rewards up a REWARDS_POOL in
        (Rewards rewards, status)
  end.

(** The fragment of JSON Schema that [predict_schema] uses: an object with
    typed properties and required keys. *)
Inductive jtype : Type := JNumber.

Record schema : Type := {
  properties : list (string * jtype);
  required : list string
}.

Definition predict_schema : schema :=
  {| properties := [("apr", JNumber); ("tvl", JNumber); ("sui_price", JNumber)];
     required := ["apr"; "tvl"; "sui_price"] |}.

(** A JSON number: an int or a float, not a bool. *)
Definition has_type (t : jtype) (v : pyval) : bool :=
  match t, v with
  | JNumber, (PyInt _ | PyFloat _) => true
  | JNumber, _ => false
  end.

Definition validate (instance : pyval) (s : schema) : result unit :=
  match instance with
  | PyDict d =>
      if forallb (fun kt : string * jtype =>
                    if dict_mem d (fst kt) then has_type (snd kt) (dict_get d (fst kt) PyNone) else true)
                 (properties s)
         && forallb (dict_mem d) (required s)
      then Ok tt else Raise ValidationError
  | _ => Raise ValidationError
  end.

(** [v[key]]. *)
Definition py_getitem (v : pyval) (key : string) : result pyval :=
  match v with
  | PyDict d => if dict_mem d key then Ok (dict_get d key PyNone) else Raise KeyError
  | _ => Raise TypeError
  end.

Inductive predict_body : Type :=
| PredictInvalid                             (* {"error": "無效輸入數據"} *)
| PredictFailed (e : exn)                    (* {"error": "預測失敗: {str(e)}"} *)
| Prediction (b : bool).                     (* {"predict": b} *)

(** [body] is the outcome of [request.get_json()]. *)
Definition predict (body : result pyval) : predict_body * Z :=
  match
    (data <- body ;;
     (if negb (py_truthy data) then Raise ValidationError else Ok tt) ;;;
     validate data predict_schema ;;;
     a <- py_getitem data "apr" ;;
     t <- py_getitem data "tvl" ;;
     p <- py_getitem data "sui_price" ;;
     let df := [ {| timestamp := None; apr := a; tvl := t; sui_price := p |} ] in
     Ok (predict_optimal_stake (Some df)))
  with
  | Ok prediction => (Prediction prediction, 200)
  | Raise ValidationError => (PredictInvalid, 400)
  | Raise e => (PredictFailed e, 500)
  end.

End Program.

Arguments pyval F : clear implicits.
Arguments dict F : clear implicits.
Arguments row F : clear implicits.
Arguments DataFrame F : clear implicits.
Arguments upstream F : clear implicits.
Arguments Latest F : clear implicits.
Arguments volo_body F : clear implicits.
Arguments RewardRecord F : clear implicits.
Arguments rewards_body F : clear implicits.
Arguments LinearModels F : clear implicits.


(** ** The regression library in exact arithmetic

    [LinearRegression()] fits an intercept: it centres the two columns of [X]
    and [y] on their means, takes the least-squares solution of minimum norm
    for the centred problem (as [scipy.linalg.lstsq] returns it, also when
    the columns are collinear or constant), and sets the intercept so that
    the fitted plane passes through the means.  [Series.mean()] is the sum
    over the count.  Over the rationals these are the closed forms below; the
    rounding of the floating-point solver is not part of this instance, which
    serves the flat series only. *)

Module ExactModels.

Local Open Scope Q_scope.

(** A numeric cell of a frame. *)
Definition to_num (v : pyval Q) : result Q :=
  match v with
  | PyInt z => Ok (inject_Z z)
  | PyFloat x => Ok x
  | PyBool b => Ok (if b then 1 else 0)
  | _ => Raise ValueError
  end.

(** One sample: the two regressors and the target. *)
Record sample : Type := { x1 : Q; x2 : Q; target : Q }.

Fixpoint samples (X : list (pyval Q * pyval Q)) (y : list (pyval Q)) : result (list sample) :=
  match X, y with
  | [], [] => Ok []
  | (a, b) :: X', c :: y' =>
      u <- to_num a ;; v <- to_num b ;; t <- to_num c ;;
      rest <- samples X' y' ;;
      Ok ({| x1 := u; x2 := v; target := t |} :: rest)
  | _, _ => Raise ValueError
  end.

Definition sumQ (l : list Q) : Q := fold_right Qplus 0 l.

Definition total {A : Type} (f : A -> Q) (l : list A) : Q := sumQ (map f l).

Definition count {A : Type} (l : list A) : Q := inject_Z (Z.of_nat (List.length l)).

Definition mean {A : Type} (f : A -> Q) (l : list A) : Q := total f l / count l.

Record model : Type := { intercept : Q; coef1 : Q; coef2 : Q }.

Definition eval (m : model) (u v : Q) : Q := intercept m + coef1 m * u + coef2 m * v.

(** A column centred on its mean, and the sum of products of two
    centred columns. *)
Definition centred {A : Type} (f : A -> Q) (l : list A) (s : A) : Q := f s - mean f l.

Definition cov {A : Type} (f g : A -> Q) (l : list A) : Q :=
  total (fun s => centred f l s * centred g l s) l.

(** The minimum-norm solution [(w1, w2)] of the centred problem: the
    solution of the normal equations when their determinant is not zero;
    otherwise the centred regressors are collinear and it is the
    projection on their common direction, or zero if they are constant. *)
Definition lstsq (l : list sample) : model :=
  let Saa := cov x1 x1 l in
  let Sab := cov x1 x2 l in
  let Sbb := cov x2 x2 l in
  let Sar := cov x1 target l in
  let Sbr := cov x2 target l in
  let det := Saa * Sbb - Sab * Sab in
  let w :=
    if Qeq_bool det 0 then
      if Qeq_bool (Saa + Sbb) 0 then (0, 0)
      else (Sar / (Saa + Sbb), Sbr / (Saa + Sbb))
    else ((Sbb * Sar - Sab * Sbr) / det, (Saa * Sbr - Sab * Sar) / det) in
  {| intercept := mean target l - fst w * mean x1 l - snd w * mean x2 l;
     coef1 := fst w; coef2 := snd w |}.

Definition fit (X : list (pyval Q * pyval Q)) (y : list (pyval Q)) : result model :=
  l <- samples X y ;;
  match l with
  | [] => Raise ValueError            (* "Found array with 0 sample(s)" *)
  | _ => Ok (lstsq l)
  end.

Definition predict_rows (m : model) (X : list (pyval Q * pyval Q)) : result (list Q) :=
  mapM (fun ab : pyval Q * pyval Q =>
          u <- to_num (fst ab) ;; v <- to_num (snd ab) ;; Ok (eval m u v)) X.

(** The mean of an empty series is NaN in pandas; the rationals have none,
    and the predictor never asks for it (its frame has 5 records or more). *)
Definition series_mean_exact (y : list (pyval Q)) : result Q :=
  l <- mapM to_num y ;;
  match l with
  | [] => Raise ValueError
  | _ => Ok (sumQ l / count l)
  end.

#[export] Instance exact_models : LinearModels Q := {
  lr_model := model;
  lr_fit := fit;
  lr_predict := predict_rows;
  series_mean := series_mean_exact
}.

(** *** What "ordinary least squares" means

    The residual sum of squares of the plane [m] on the samples, and the
    planes that minimise it. *)
Definition residual (m : model) (s : sample) : Q := target s - eval m (x1 s) (x2 s).

Definition rss (m : model) (l : list sample) : Q := total (fun s => residual m s * residual m s) l.

Definition least_squares (m : model) (l : list sample) : Prop :=
  forall m' : model, rss m l <= rss m' l.

(** The normal equations of the centred problem, and the intercept. *)
Definition normal (l : list sample) (m : model) : Prop :=
  intercept m == mean target l - coef1 m * mean x1 l - coef2 m * mean x2 l
  /\ coef1 m * cov x1 x1 l + coef2 m * cov x1 x2 l == cov x1 target l
  /\ coef1 m * cov x1 x2 l + coef2 m * cov x2 x2 l == cov x2 target l.

(** A series of numeric records, as a frame and as regression samples:
    the regressors are (sui_price, tvl), the target is apr. *)
Record record : Type := { r_apr : Q; r_tvl : Q; r_sui_price : Q }.

Definition frame_of (series : list record) : DataFrame Q :=
  map (fun r => {| timestamp := None; apr := PyFloat (r_apr r);
                   tvl := PyFloat (r_tvl r); sui_price := PyFloat (r_sui_price r) |}) series.

Definition sample_of (r : record) : sample :=
  {| x1 := r_sui_price r; x2 := r_tvl r; target := r_apr r |}.

Definition flat (c t p : Q) (n : nat) : list record :=
  repeat {| r_apr := c; r_tvl := t; r_sui_price := p |} n.

End ExactModels.

Import ExactModels.

(** ** Notions used in the statements *)

Section Notions.

Context {F : Type} `{FloatArith F}.

(** The upstream call did not deliver a decoded body with status 200. *)
Definition upstream_failed (up : upstream F) : Prop :=
  match up with
  | Unreachable _ => True
  | Response status json => status <> 200 \/ exists e, json = Raise e
  end.

(** The entry is an object whose coinType is the pool id. *)
Definition entry_for (pool_id : string) (pool : pyval F) : bool :=
  match pool with
  | PyDict d => py_eq_str (dict_get d "coinType" PyNone) pool_id
  | _ => false
  end.

Definition is_dict (v : pyval F) : bool :=
  match v with
  | PyDict _ => true
  | _ => false
  end.

(** Record [i] of the series of a snapshot [(t0, a, v, p)]: stamped
    [t0 - i days], with [a * (1 + 0.01 * (i mod 5))],
    [v * (1 - 0.005 * (i mod 7))] and [p * (1 + 0.02 * (i mod 3))]. *)
Definition day_record (t0 : datetime) (a v p : F) (i : Z) : row F :=
  {| timestamp := Some (t0 - i * US_PER_DAY);
     apr := PyFloat (a * (of_int 1 + lit 1 (-2) * of_int (i mod 5)))%F;
     tvl := PyFloat (v * (of_int 1 - lit 5 (-3) * of_int (i mod 7)))%F;
     sui_price := PyFloat (p * (of_int 1 + lit 2 (-2) * of_int (i mod 3)))%F |}.

(** *** The rewards filter *)

Definition NAVX_SUFFIX : string := "::navx::NAVX".

(** [record.pool == poolId AND record.coin_type ends with "::navx::NAVX"]. *)
Definition passes_filter (pool_id : string) (reward : pyval F) : bool :=
  match reward with
  | PyDict d =>
      py_eq_str (dict_get d "pool" (PyStr "")) pool_id
      && match dict_get d "coin_type" (PyStr "") with
         | PyStr ct => endswith ct NAVX_SUFFIX
         | _ => false
         end
  | _ => false
  end.

(** [r] is the record made of the upstream reward: the amount over 1e9, the
    timestamp as it came, the token price with its default. *)
Definition record_of (reward : pyval F) (r : RewardRecord F) : Prop :=
  exists d a tp,
    reward = PyDict d
    /\ py_float (dict_get d "amount" (PyInt 0)) = Ok a
    /\ amount r = (a / lit 1 9)%F
    /\ py_float (dict_get d "token_price" (PyFloat (lit 144426003098488 (-15)))) = Ok tp
    /\ token_price r = tp
    /\ reward_timestamp r = dict_get d "timestamp" (PyStr "")
    /\ (dict_mem d "token_price" = false -> token_price r = lit 144426003098488 (-15)).

(** Nothing raises on this reward: it is an object; if it is of the pool its
    coin type is a str; if it passes the filter, [float] accepts its amount
    and its token price. *)
Definition well_formed (pool_id : string) (reward : pyval F) : Prop :=
  exists d,
    reward = PyDict d
    /\ (py_eq_str (dict_get d "pool" (PyStr "")) pool_id = true ->
        exists ct,
          dict_get d "coin_type" (PyStr "") = PyStr ct
          /\ (endswith ct NAVX_SUFFIX = true ->
              (exists a, py_float (dict_get d "amount" (PyInt 0)) = Ok a)
              /\ (exists tp, py_float (dict_get d "token_price"
                                         (PyFloat (lit 144426003098488 (-15)))) = Ok tp))).

(** The answer of a path of the fetcher: data with 200, or an error with 500. *)
Definition coherent (r : volo_body F * Z) : Prop :=
  (exists latest df, r = (VoloData latest df, 200)) \/ (exists err, r = (VoloError err, 500)).

(** The reward is an object of the pool. *)
Definition of_pool (pool_id : string) (reward : pyval F) : bool :=
  match reward with
  | PyDict d => py_eq_str (dict_get d "pool" (PyStr "")) pool_id
  | _ => false
  end.

End Notions.

(** ** Concrete inputs used in the examples *)

(** A clock and UTC as the local time zone. *)
Definition utc : Env := {| now_ms := 1700000000000; utcoffset := fun _ => 0 |}.

(** The example entry of the specification: coinType "0x2::sui::SUI", apy "10.0". *)
Definition sui_entry {F : Type} `{FloatArith F} : pyval F :=
  PyDict [("coinType", PyStr "0x2::sui::SUI");
          ("supplyIncentiveApyInfo", PyDict [("apy", PyStr "10.0")])].

(** Two snapshots with a numeric timestamp: a recent one, and the epoch. *)
Definition recent_snapshot {F : Type} `{FloatArith F} : pyval F :=
  PyDict [("lastUpdateTimestamp", PyInt 1700000000000)].

Definition epoch_snapshot {F : Type} `{FloatArith F} : pyval F :=
  PyDict [("lastUpdateTimestamp", PyInt 0)].

(** Rewards of the pool "p": a NAVX reward, a reward in another coin, and a
    NAVX reward whose amount is not a number. *)
Definition navx_reward {F : Type} `{FloatArith F} : pyval F :=
  PyDict [("pool", PyStr "p"); ("coin_type", PyStr "0xabc::navx::NAVX");
          ("amount", PyStr "1500000000")].

Definition sui_reward {F : Type} `{FloatArith F} : pyval F :=
  PyDict [("pool", PyStr "p"); ("coin_type", PyStr "0xabc::sui::SUI");
          ("amount", PyStr "7")].

Definition broken_reward {F : Type} `{FloatArith F} : pyval F :=
  PyDict [("pool", PyStr "p"); ("coin_type", PyStr "0xdef::navx::NAVX");
          ("amount", PyStr "n/a")].

(** A request body for the predict endpoint. *)
Definition predict_request : pyval Q :=
  PyDict [("apr", PyInt 5); ("tvl", PyInt 100); ("sui_price", PyFloat (3 # 2))].

(** An entry for the pool with a numeric timestamp. *)
Definition timed_sui_entry {F : Type} `{FloatArith F} : pyval F :=
  PyDict [("coinType", PyStr "0x2::sui::SUI");
          ("lastUpdateTimestamp", PyInt 1700000000000);
          ("supplyIncentiveApyInfo", PyDict [("apy", PyStr "10.0")])].

(** What the fetcher answers on it. *)
Definition timed_sui_latest : Latest float :=
  {| latest_apr := lit 10 0;
     latest_tvl := (of_int 52969686454591258 / lit 1 9)%F;
     latest_sui_price := lit 434833514 (-8);
     latest_timestamp := PyInt 1700000000000 |}.

Definition timed_sui_series (days : Z) : DataFrame float :=
  map (day_record 63835596800000000 (lit 10 0)
         (of_int 52969686454591258 / lit 1 9)%F (lit 434833514 (-8))) (range days).

(** The fields of [recent_snapshot], which has a timestamp only. *)
Definition recent_fields : dict float := [("lastUpdateTimestamp", PyInt 1700000000000)].

(** A request body without sui_price. *)
Definition incomplete_request : pyval Q := PyDict [("apr", PyInt 5); ("tvl", PyInt 100)].


(** * Properties *)

Unset Implicit Arguments.

Lemma bind_ok {A B : Type} (c : result A) (k : A -> result B) (b : B) :
  bind c k = Ok b -> exists a, c = Ok a /\ k a = Ok b.
Proof.
  destruct c as [a | e]; cbn; intros E; [ exists a; split; [reflexivity | exact E] | discriminate ].
Qed.

Section Properties.

Context {F : Type} `{FloatArith F}.

Lemma dict_get_absent (d : dict F) (key : string) (default : pyval F) :
  dict_mem d key = false -> dict_get d key default = default.
Proof.
  induction d as [| [k v] d IH]; cbn; [reflexivity |].
  destruct (String.eqb k key); cbn; [discriminate | exact IH].
Qed.

(** *** The predictor's guard *)

(** C9: an absent series, or one of fewer than 5 records, is answered
    [False]; no library call is made and nothing is raised. *)
Theorem predict_insufficient_data (lib : LinearModels F) (df : option (DataFrame F)) :
  (df = None \/ exists d, df = Some d /\ (List.length d < 5)%nat) ->
  predict_optimal_stake df = false.
Proof.
  intros [-> | [d [-> Hlen]]]; [reflexivity |].
  unfold predict_optimal_stake.
  apply Nat.ltb_lt in Hlen. rewrite Hlen. reflexivity.
Qed.

(** *** The predict endpoint *)

Lemma validate_accepts (data : pyval F) :
  validate data predict_schema = Ok tt ->
  exists d, data = PyDict d /\ dict_mem d "apr" = true /\ dict_mem d "tvl" = true
            /\ dict_mem d "sui_price" = true.
Proof.
  destruct data; try discriminate. unfold validate.
  intros E. exists d. split; [reflexivity |].
  match type of E with (if ?c then _ else _) = _ => destruct c eqn:C; [| discriminate] end.
  apply andb_true_iff in C. destruct C as [_ C]. cbn in C.
  repeat (apply andb_true_iff in C; destruct C as [? C]).
  repeat split; assumption.
Qed.

(** C3: a body the schema accepts is answered 200 with [predict = False]:
    the frame built from it has one record, which the predictor's guard
    rejects before any regression is fitted. *)
Theorem predict_endpoint_always_false (lib : LinearModels F) (data : pyval F) :
  validate data predict_schema = Ok tt ->
  predict (Ok data) = (Prediction false, 200).
Proof.
  intros V. destruct (validate_accepts data V) as [d [-> [Ha [Ht Hp]]]].
  unfold predict. cbn [bind].
  assert (T : py_truthy (PyDict d) = true).
  { destruct d; [discriminate Ha | reflexivity]. }
  rewrite T. cbn [negb bind]. rewrite V. cbn [bind].
  unfold py_getitem. rewrite Ha, Ht, Hp. cbn [bind].
  reflexivity.
Qed.

(** *** The rewards fetcher *)

(** C5: the rewards fetcher answers with status 200 whatever the upstream
    does, with the empty list when the upstream call failed, answered with
    another status or sent an undecodable body; so does the endpoint once the
    user address is given. *)
Theorem rewards_fetch_never_fails (up : upstream F) (user_address pool_id : string) :
  snd (fetch_rewards up user_address pool_id) = 200
  /\ (upstream_failed up -> fetch_rewards up user_address pool_id = ([], 200))
  /\ (user_address <> "" ->
      exists rewards, get_rewards (Some user_address) up = (Rewards rewards, 200)).
Proof.
  assert (S : snd (fetch_rewards up user_address pool_id) = 200).
  { unfold fetch_rewards. destruct up as [e | status json]; [reflexivity |].
    destruct (negb (status =? 200)); [reflexivity |].
    destruct (bind json _); reflexivity. }
  split; [exact S | split].
  - unfold upstream_failed, fetch_rewards. destruct up as [e | status json]; [reflexivity |].
    intros [Hs | [e ->]].
    + apply Z.eqb_neq in Hs. rewrite Hs. reflexivity.
    + destruct (negb (status =? 200)); reflexivity.
  - intros Hne. unfold get_rewards.
    apply String.eqb_neq in Hne. rewrite Hne.
    destruct (fetch_rewards up user_address REWARDS_POOL) as [rewards status] eqn:E.
    exists rewards. f_equal.
    pose proof S as S'. unfold fetch_rewards in E.
    destruct up as [e | st json]; [inversion E; reflexivity |].
    destruct (negb (st =? 200)); [inversion E; reflexivity |].
    destruct (bind json _); inversion E; reflexivity.
Qed.

(** *** The pool fetcher and the timestamp of a snapshot *)

Context (env : Env).

(** [latest_data.get("lastUpdateTimestamp", str(...)) / 1000] is evaluated
    before [int(...)] is applied: when the timestamp is a str, which it is
    whenever the key is absent, the division raises TypeError and the
    generator returns [None]. *)
Lemma simulate_str_timestamp (d : dict F) (days : Z) (s : string) :
  dict_get d "lastUpdateTimestamp" (PyStr (str_of_int (now_ms env))) = PyStr s ->
  simulate_historical_data env (PyDict d) days = None.
Proof.
  intros E. unfold simulate_historical_data, snapshot_fields.
  cbn [py_get bind]. rewrite E. reflexivity.
Qed.

(** The loop passes over the objects that are not the pool. *)
Lemma scan_pools_skip (pool_id : string) (days : Z) (pre rest : list (pyval F)) :
  forallb is_dict pre = true ->
  existsb (entry_for pool_id) pre = false ->
  scan_pools env pool_id days (pre ++ rest) = scan_pools env pool_id days rest.
Proof.
  induction pre as [| pool pre IH]; cbn [app forallb existsb]; [reflexivity |].
  intros D N. apply andb_true_iff in D. destruct D as [D1 D2].
  apply orb_false_iff in N. destruct N as [N1 N2].
  destruct pool; try discriminate D1.
  cbn [scan_pools py_get bind]. cbn [entry_for] in N1. rewrite N1.
  apply IH; assumption.
Qed.

Lemma default_pool_fails (days : Z) :
  default_pool env days = Ok (VoloError DefaultSimulationFailed, 500).
Proof.
  unfold default_pool, default_data.
  rewrite (simulate_str_timestamp _ days (str_of_int (now_ms env))); reflexivity.
Qed.

(** C1 (as the code behaves): when the pools endpoint answers 200 with an
    array of objects none of which is the pool, the fetcher does not fall back
    to the defaults: it answers 500, "預設數據模擬失敗", because the default
    snapshot carries its timestamp as a str. *)
Theorem pool_fallback_fails (data : list (pyval F)) (pool_id : string) (days : Z) :
  forallb is_dict data = true ->
  existsb (entry_for pool_id) data = false ->
  fetch_volo_data env (Response 200 (Ok (PyList data))) pool_id days
  = (VoloError DefaultSimulationFailed, 500).
Proof.
  intros D N. unfold fetch_volo_data. cbn [Z.eqb negb bind py_slice2 py_iter Pos.eqb].
  rewrite <- (app_nil_r data), (scan_pools_skip pool_id days data [] D N).
  cbn [scan_pools]. rewrite default_pool_fails. reflexivity.
Qed.

(** C4 (as the code behaves): when the first entry for the pool carries no
    [lastUpdateTimestamp], or carries it as a str, the fetcher answers 500,
    "數據模擬失敗", whatever the other fields of the entry are. *)
Theorem pool_match_fails_on_timestamp
    (pre rest : list (pyval F)) (d : dict F) (pool_id : string) (days : Z) (s : string) :
  forallb is_dict pre = true ->
  existsb (entry_for pool_id) pre = false ->
  entry_for pool_id (PyDict d) = true ->
  dict_get d "lastUpdateTimestamp" (PyStr (str_of_int (now_ms env))) = PyStr s ->
  fetch_volo_data env (Response 200 (Ok (PyList (pre ++ PyDict d :: rest)))) pool_id days
  = (VoloError SimulationFailed, 500).
Proof.
  intros D N M T. unfold fetch_volo_data. cbn [Z.eqb negb bind py_slice2 py_iter Pos.eqb].
  rewrite (scan_pools_skip pool_id days pre (PyDict d :: rest) D N).
  cbn [scan_pools py_get bind]. cbn [entry_for] in M. rewrite M.
  unfold matched_pool. rewrite (simulate_str_timestamp d days s T). reflexivity.
Qed.

End Properties.

(** The fallback on the empty array, on binary64. *)
Lemma pool_fallback_fails_witness :
  @fetch_volo_data float _ utc (Response 200 (Ok (PyList []))) "0x2::sui::SUI" 30
  = (VoloError DefaultSimulationFailed, 500).
Proof.
  apply (pool_fallback_fails utc [] "0x2::sui::SUI" 30); reflexivity.
Defined.

(** The example of the specification, on binary64. *)
Lemma pool_match_fails_on_timestamp_witness :
  @fetch_volo_data float _ utc (Response 200 (Ok (PyList [sui_entry]))) "0x2::sui::SUI" 30
  = (VoloError SimulationFailed, 500).
Proof.
  apply (pool_match_fails_on_timestamp utc [] [] _ "0x2::sui::SUI" 30 "1700000000000");
    reflexivity.
Defined.

Lemma predict_insufficient_data_witness :
  @predict_optimal_stake Q _ _ (Some (frame_of (flat 1 1 1 4))) = false.
Proof.
  apply predict_insufficient_data. right.
  exists (frame_of (flat 1 1 1 4)). split; [reflexivity | cbn; lia].
Defined.

Lemma predict_endpoint_always_false_witness :
  @predict Q _ _ (Ok predict_request) = (Prediction false, 200).
Proof.
  apply predict_endpoint_always_false. reflexivity.
Defined.

(** ** The synthetic history generator *)

Section Generator.

Context {F : Type} `{FloatArith F} (env : Env).

Lemma range_from_length (i : Z) (n : nat) : List.length (range_from i n) = n.
Proof. revert i. induction n as [| n IH]; intros i; cbn; [reflexivity | now rewrite IH]. Qed.

Lemma range_from_nth (i : Z) (n k : nat) :
  (k < n)%nat -> nth_error (range_from i n) k = Some (i + Z.of_nat k).
Proof.
  revert i k. induction n as [| n IH]; intros i k Hk; [lia |].
  destruct k as [| k]; cbn [range_from nth_error].
  - f_equal. lia.
  - rewrite IH by lia. f_equal. lia.
Qed.

Lemma range_from_bounds (i : Z) (n : nat) (x : Z) :
  In x (range_from i n) -> i <= x < i + Z.of_nat n.
Proof.
  revert i. induction n as [| n IH]; intros i; cbn [range_from In]; [tauto |].
  intros [<- | Hx]; [lia |]. apply IH in Hx. lia.
Qed.

Lemma range_length (days : Z) : List.length (range days) = Z.to_nat days.
Proof. apply range_from_length. Qed.

Lemma range_nth (days i : Z) :
  0 <= i < days -> nth_error (range days) (Z.to_nat i) = Some i.
Proof.
  intros Hi. unfold range. rewrite range_from_nth by lia. f_equal. lia.
Qed.

Lemma range_bounds (days x : Z) : In x (range days) -> 0 <= x < days.
Proof. intros Hx. apply range_from_bounds in Hx. lia. Qed.

Lemma range_nonpositive (days : Z) : days <= 0 -> range days = [].
Proof. intros Hd. unfold range. replace (Z.to_nat days) with O by lia. reflexivity. Qed.

Lemma mapM_total {A B : Type} (f : A -> result B) (g : A -> B) (l : list A) :
  (forall x, In x l -> f x = Ok (g x)) -> mapM f l = Ok (map g l).
Proof.
  induction l as [| a l IH]; intros Hf; cbn [mapM map]; [reflexivity |].
  rewrite (Hf a (or_introl eq_refl)). cbn [bind].
  rewrite IH by (intros x Hx; apply Hf; right; exact Hx). reflexivity.
Qed.

Lemma mapM_graph {A B : Type} (f : A -> result B) (g : A -> B) (l : list A) (bs : list B) :
  (forall x y, f x = Ok y -> y = g x) -> mapM f l = Ok bs -> bs = map g l.
Proof.
  intros Hf. revert bs. induction l as [| a l IH]; intros bs; cbn [mapM map].
  - intros E. inversion E. reflexivity.
  - intros E. apply bind_ok in E. destruct E as [b [Eb E]].
    apply bind_ok in E. destruct E as [bs' [Ebs E]]. inversion E; subst.
    rewrite (Hf a b Eb), (IH bs' Ebs). reflexivity.
Qed.

Lemma pd_DataFrame_map (f1 : Z -> datetime) (f2 f3 f4 : Z -> F) (l : list Z) :
  pd_DataFrame (map f1 l) (map f2 l) (map f3 l) (map f4 l)
  = Ok (map (fun i => {| timestamp := Some (f1 i); apr := PyFloat (f2 i);
                         tvl := PyFloat (f3 i); sui_price := PyFloat (f4 i) |}) l).
Proof.
  unfold pd_DataFrame. rewrite !length_map, Nat.eqb_refl. cbn [andb]. f_equal.
  induction l as [| i l IH]; cbn [map combine]; [reflexivity |].
  f_equal. exact IH.
Qed.

Lemma day_shift_graph (t0 : datetime) (i : Z) (y : datetime) :
  bind (timedelta_days i) (fun td => datetime_sub t0 td) = Ok y -> y = t0 - i * US_PER_DAY.
Proof.
  unfold timedelta_days, datetime_sub.
  destruct (Z.abs i <=? 999999999); cbn [bind]; [| discriminate].
  destruct (in_datetime_range (t0 - i * US_PER_DAY)); intros E; inversion E; reflexivity.
Qed.

Lemma in_datetime_range_spec (us : Z) :
  in_datetime_range us = true <-> 0 <= us <= MAX_US.
Proof. unfold in_datetime_range. rewrite andb_true_iff, !Z.leb_le. tauto. Qed.

Lemma day_shift_total (t0 : datetime) (days i : Z) :
  in_datetime_range t0 = true ->
  in_datetime_range (t0 - (days - 1) * US_PER_DAY) = true ->
  0 <= i < days ->
  bind (timedelta_days i) (fun td => datetime_sub t0 td) = Ok (t0 - i * US_PER_DAY).
Proof.
  rewrite !in_datetime_range_spec. unfold MAX_US, US_PER_DAY. intros H0 H1 Hi.
  unfold timedelta_days, datetime_sub.
  assert (B : (Z.abs i <=? 999999999) = true) by (apply Z.leb_le; lia).
  rewrite B. cbn [bind].
  assert (R : in_datetime_range (t0 - i * US_PER_DAY) = true).
  { apply in_datetime_range_spec. unfold MAX_US, US_PER_DAY. nia. }
  rewrite R. reflexivity.
Qed.

(** The base time of a snapshot that parses is a [datetime]. *)
Lemma snapshot_base_time (latest_data : pyval F) (t0 : datetime) (a v p : F) :
  snapshot_fields env latest_data = Ok (t0, a, v, p) -> in_datetime_range t0 = true.
Proof.
  unfold snapshot_fields. intros E.
  repeat (apply bind_ok in E; destruct E as [? [? E]]).
  injection E as <- _ _ _.
  match goal with
  | T : fromtimestamp _ _ = Ok _ |- _ => unfold fromtimestamp in T
  end.
  match goal with
  | T : (if in_datetime_range ?u && ?c then _ else _) = Ok ?t |- _ =>
      destruct (in_datetime_range u) eqn:R; [| discriminate T];
      destruct c; [| discriminate T];
      cbn [andb] in T;
      assert (Eu : u = t) by congruence; rewrite <- Eu; exact R
  end.
Qed.

(** When the generator returns a frame, the frame is the list of the records
    of the days [0 .. days-1] of the parsed snapshot. *)
Lemma simulate_some (latest_data : pyval F) (days : Z) (df : DataFrame F) :
  simulate_historical_data env latest_data days = Some df ->
  exists t0 a v p,
    snapshot_fields env latest_data = Ok (t0, a, v, p)
    /\ df = map (day_record t0 a v p) (range days).
Proof.
  unfold simulate_historical_data.
  destruct (snapshot_fields env latest_data) as [[[[t0 a] v] p] | e]; cbn [bind]; [| discriminate].
  destruct (mapM _ (range days)) as [ts | e] eqn:M; cbn [bind]; [| discriminate].
  apply (mapM_graph _ (fun i => t0 - i * US_PER_DAY)) in M; [| intros x y; apply day_shift_graph].
  subst ts. rewrite pd_DataFrame_map. intros E. inversion E.
  exists t0, a, v, p. split; reflexivity.
Qed.

(** The generator returns the frame whenever the snapshot parses and the
    oldest day is not before [datetime.min]. *)
Lemma simulate_total (latest_data : pyval F) (days : Z) (t0 : datetime) (a v p : F) :
  snapshot_fields env latest_data = Ok (t0, a, v, p) ->
  (0 < days -> in_datetime_range (t0 - (days - 1) * US_PER_DAY) = true) ->
  simulate_historical_data env latest_data days = Some (map (day_record t0 a v p) (range days)).
Proof.
  intros S R. unfold simulate_historical_data. rewrite S. cbn [bind].
  rewrite (mapM_total _ (fun i => t0 - i * US_PER_DAY)).
  - cbn [bind]. rewrite pd_DataFrame_map. reflexivity.
  - intros i Hi. apply range_bounds in Hi.
    apply day_shift_total with (days := days);
      [apply (snapshot_base_time latest_data t0 a v p S) | apply R; lia | exact Hi].
Qed.

(** C7 (amended): for a snapshot that parses to [(t0, a, v, p)] and a number
    of days whose oldest day [t0 - (days-1) days] is not before [datetime.min],
    the generator returns exactly [days] records, record [i] stamped
    [t0 - i days], hence most recent first; for [days <= 0] the series is
    empty. *)
Theorem simulate_series_shape
    (latest_data : pyval F) (days : Z) (t0 : datetime) (a v p : F) :
  snapshot_fields env latest_data = Ok (t0, a, v, p) ->
  (0 < days -> in_datetime_range (t0 - (days - 1) * US_PER_DAY) = true) ->
  exists df,
    simulate_historical_data env latest_data days = Some df
    /\ List.length df = Z.to_nat days
    /\ (days <= 0 -> df = [])
    /\ (forall i, 0 <= i < days ->
          exists r, nth_error df (Z.to_nat i) = Some r
                    /\ timestamp r = Some (t0 - i * US_PER_DAY))
    /\ (forall i j ri rj, 0 <= i < j -> j < days ->
          nth_error df (Z.to_nat i) = Some ri -> nth_error df (Z.to_nat j) = Some rj ->
          exists ti tj, timestamp ri = Some ti /\ timestamp rj = Some tj /\ tj < ti).
Proof.
  intros S R. exists (map (day_record t0 a v p) (range days)).
  split; [apply simulate_total; assumption |].
  split; [rewrite length_map; apply range_length |].
  split; [intros Hd; rewrite range_nonpositive by exact Hd; reflexivity |].
  split.
  - intros i Hi. exists (day_record t0 a v p i). split; [| reflexivity].
    rewrite nth_error_map, range_nth by exact Hi. reflexivity.
  - intros i j ri rj Hij Hj. rewrite !nth_error_map, !range_nth by lia.
    cbn [option_map]. intros Ei Ej. inversion Ei. inversion Ej.
    exists (t0 - i * US_PER_DAY), (t0 - j * US_PER_DAY).
    repeat split. unfold US_PER_DAY. lia.
Qed.

(** With a numeric timestamp the matched path works as designed: when the
    first entry for the pool parses to [(t0, a, v, p)], the answer is 200 with
    [latest] made of [a], [v], [p] and the series of the entry. *)
Lemma pool_match_numeric_timestamp
    (pre rest : list (pyval F)) (d : dict F) (pool_id : string) (days : Z)
    (t0 : datetime) (a v p : F) :
  forallb is_dict pre = true ->
  existsb (entry_for pool_id) pre = false ->
  entry_for pool_id (PyDict d) = true ->
  snapshot_fields env (PyDict d) = Ok (t0, a, v, p) ->
  0 < days ->
  in_datetime_range (t0 - (days - 1) * US_PER_DAY) = true ->
  fetch_volo_data env (Response 200 (Ok (PyList (pre ++ PyDict d :: rest)))) pool_id days
  = (VoloData {| latest_apr := a; latest_tvl := v; latest_sui_price := p;
                 latest_timestamp :=
                   dict_get d "lastUpdateTimestamp" (PyStr (str_of_int (now_ms env))) |}
              (map (day_record t0 a v p) (range days)), 200).
Proof.
  intros D N M S Hd R. unfold fetch_volo_data. cbn [Z.eqb negb bind py_slice2 py_iter Pos.eqb].
  rewrite (scan_pools_skip env pool_id days pre (PyDict d :: rest) D N).
  cbn [scan_pools py_get bind]. cbn [entry_for] in M. rewrite M.
  unfold matched_pool.
  rewrite (simulate_total (PyDict d) days t0 a v p S (fun _ => R)).
  assert (E : exists r l, map (day_record t0 a v p) (range days) = r :: l).
  { destruct (map (day_record t0 a v p) (range days)) as [| r l] eqn:L; [| eauto].
    apply (f_equal (@List.length _)) in L. rewrite length_map, range_length in L. cbn in L. lia. }
  destruct E as [r [l E]]. rewrite E. cbn [at0 bind]. rewrite <- E. clear E.
  unfold snapshot_fields in S.
  repeat (apply bind_ok in S; destruct S as [? [? S]]).
  cbn [py_get] in *.
  repeat match goal with
         | X : Ok _ = Ok _ |- _ => injection X as X; subst
         end.
  repeat (cbn [bind];
          match goal with
          | X : ?c = Ok _ |- context [bind ?c _] => rewrite X
          end).
  reflexivity.
Qed.

Lemma mapM_raise {A B : Type} (f : A -> result B) (l : list A) (x : A) (e : exn) :
  In x l -> f x = Raise e -> exists e', mapM f l = Raise e'.
Proof.
  induction l as [| a l IH]; cbn [In mapM]; [tauto |].
  intros [-> | Hx] E.
  - rewrite E. exists e. reflexivity.
  - destruct (f a) as [b | e1]; cbn [bind]; [| exists e1; reflexivity].
    destruct (IH Hx E) as [e' ->]. exists e'. reflexivity.
Qed.

(** The generator fails as soon as the oldest day falls before
    [datetime.min]. *)
Lemma simulate_before_min (latest_data : pyval F) (days : Z) (t0 : datetime) (a v p : F) :
  snapshot_fields env latest_data = Ok (t0, a, v, p) ->
  0 < days ->
  t0 - (days - 1) * US_PER_DAY < 0 ->
  simulate_historical_data env latest_data days = None.
Proof.
  intros S D B. unfold simulate_historical_data. rewrite S. cbn [bind].
  destruct (mapM_raise (fun i => td <- timedelta_days i ;; datetime_sub t0 td)
              (range days) (days - 1) OverflowError) as [e' ->]; [| | reflexivity].
  - apply nth_error_In with (n := Z.to_nat (days - 1)). apply range_nth. lia.
  - unfold timedelta_days, datetime_sub.
    destruct (Z.abs (days - 1) <=? 999999999); cbn [bind]; [| reflexivity].
    assert (R : in_datetime_range (t0 - (days - 1) * US_PER_DAY) = false).
    { unfold in_datetime_range. apply andb_false_iff. left. apply Z.leb_gt. exact B. }
    rewrite R. reflexivity.
Qed.

End Generator.

(** A recent snapshot and 30 days. *)
Lemma simulate_series_shape_witness :
  exists df,
    @simulate_historical_data float _ utc recent_snapshot 30 = Some df
    /\ List.length df = Z.to_nat 30
    /\ (30 <= 0 -> df = [])
    /\ (forall i, 0 <= i < 30 ->
          exists r, nth_error df (Z.to_nat i) = Some r
                    /\ timestamp r = Some (63835596800000000 - i * US_PER_DAY))
    /\ (forall i j ri rj, 0 <= i < j -> j < 30 ->
          nth_error df (Z.to_nat i) = Some ri -> nth_error df (Z.to_nat j) = Some rj ->
          exists ti tj, timestamp ri = Some ti /\ timestamp rj = Some tj /\ tj < ti).
Proof.
  apply (simulate_series_shape utc recent_snapshot 30 63835596800000000
           (lit 4908 (-3)) (of_int 52969686454591258 / lit 1 9)%F (lit 434833514 (-8))).
  - vm_compute. reflexivity.
  - intros _. vm_compute. reflexivity.
Defined.

(** C7, as stated, fails: the snapshot taken at the epoch has numeric fields
    and parses, and a million days is a positive number of days, yet the
    generator returns no series: day 719163 would fall before
    [datetime.min] and the subtraction raises OverflowError. *)
Lemma simulate_a_million_days :
  (exists b, @snapshot_fields float _ utc epoch_snapshot = Ok b)
  /\ 0 < 1000000
  /\ @simulate_historical_data float _ utc epoch_snapshot 1000000 = None.
Proof.
  assert (S : @snapshot_fields float _ utc epoch_snapshot
              = Ok (62135596800000000, lit 4908 (-3),
                    (of_int 52969686454591258 / lit 1 9)%F, lit 434833514 (-8))).
  { vm_compute. reflexivity. }
  split; [eexists; exact S |]. split; [lia |].
  apply (simulate_before_min utc _ _ _ _ _ _ S); [lia | vm_compute; reflexivity].
Qed.

(** ** binary64: the perturbation at day 0 is the identity *)

Module Binary64Facts.

Lemma Prim2SF_one : Prim2SF 1%float = SF_one.
Proof. reflexivity. Qed.

(** A canonical mantissa is not shifted. *)
Lemma shr_fexp_canonical (m : positive) (e : Z) :
  canonical_mantissa prec emax m e = true ->
  shr_fexp prec emax (Zpos m) e loc_Exact
  = ({| shr_m := Zpos m; shr_r := false; shr_s := false |}, e).
Proof.
  unfold canonical_mantissa. intros C. apply Z.eqb_eq in C.
  unfold shr_fexp. cbn [Zdigits2 shr_record_of_loc]. rewrite C, Z.sub_diag. reflexivity.
Qed.

(** The product of a canonical mantissa by the mantissa [2^52] of 1.0 is
    shifted back by 52 bits, all of them zero. *)
Lemma shr_fexp_scaled (m : positive) (e : Z) :
  canonical_mantissa prec emax m e = true ->
  shr_fexp prec emax (Zpos (m * 4503599627370496)) (e + -52) loc_Exact
  = ({| shr_m := Zpos m; shr_r := false; shr_s := false |}, e).
Proof.
  unfold canonical_mantissa. intros C. apply Z.eqb_eq in C.
  rewrite Pos.mul_comm. cbn [Pos.mul].
  unfold shr_fexp. cbn [Zdigits2 shr_record_of_loc digits2_pos].
  rewrite !Pos2Z.inj_succ.
  match goal with
  | |- context [fexp prec emax ?a] =>
      replace a with (Zpos (digits2_pos m) + e) by lia
  end.
  rewrite C. replace (e - (e + -52)) with 52 by lia.
  unfold shr. cbn [iter_pos shr_1 orb]. f_equal. lia.
Qed.

Lemma SFmul_one_r (x : spec_float) :
  valid_binary x = true -> SF64mul x SF_one = x.
Proof.
  destruct x as [s | s | | s m e]; intros V.
  - cbn. now rewrite xorb_false_r.
  - cbn. now rewrite xorb_false_r.
  - reflexivity.
  - cbn [SpecFloat.valid_binary] in V. unfold bounded in V.
    apply andb_true_iff in V. destruct V as [C B].
    unfold SF64mul, SF_one, SFmul, binary_round_aux.
    rewrite xorb_false_r, (shr_fexp_scaled m e C).
    cbn [shr_m loc_of_shr_record round_nearest_even].
    rewrite (shr_fexp_canonical m e C). cbn [shr_m]. rewrite B. reflexivity.
Qed.

(** [x * 1.0] is [x], bit for bit, for every float (the kernel's floats
    have one NaN). *)
Lemma mul_1_r (x : float) : (x * 1)%float = x.
Proof.
  apply Prim2SF_inj. rewrite mul_spec, Prim2SF_one.
  apply SFmul_one_r, Prim2SF_valid.
Qed.

(** The constants of the generator are the doubles nearest to the decimal
    literals of the source. *)
Lemma of_int_1 : @of_int float _ 1 = 1%float.
Proof. reflexivity. Qed.

Lemma lit_0_01 : @lit float _ 1 (-2) = 0.01%float.
Proof. reflexivity. Qed.

Lemma lit_0_005 : @lit float _ 5 (-3) = 0.005%float.
Proof. reflexivity. Qed.

Lemma lit_0_02 : @lit float _ 2 (-2) = 0.02%float.
Proof. reflexivity. Qed.

(** At day 0 each factor is 1.0. *)
Lemma apr_factor_0 : (1 + 0.01 * @of_int float _ (0 mod 5))%float = 1%float.
Proof. reflexivity. Qed.

Lemma tvl_factor_0 : (1 - 0.005 * @of_int float _ (0 mod 7))%float = 1%float.
Proof. reflexivity. Qed.

Lemma price_factor_0 : (1 + 0.02 * @of_int float _ (0 mod 3))%float = 1%float.
Proof. reflexivity. Qed.

(** Record [i] of a series, with the operations of binary64. *)
Lemma day_record_b64 (t0 : datetime) (a v p : float) (i : Z) :
  day_record t0 a v p i
  = {| timestamp := Some (t0 - i * US_PER_DAY);
       apr := PyFloat (a * (1 + 0.01 * of_int (i mod 5)))%float;
       tvl := PyFloat (v * (1 - 0.005 * of_int (i mod 7)))%float;
       sui_price := PyFloat (p * (1 + 0.02 * of_int (i mod 3)))%float |}.
Proof.
  unfold day_record. rewrite of_int_1, lit_0_01, lit_0_005, lit_0_02. reflexivity.
Qed.

End Binary64Facts.

(** C6: in every series the generator returns, record [i] holds
    [apr_0 * (1 + 0.01 * (i mod 5))], [tvl_0 * (1 - 0.005 * (i mod 7))] and
    [price_0 * (1 + 0.02 * (i mod 3))], computed in binary64 with the int
    [i mod n] converted to float, where [(apr_0, tvl_0, price_0)] are the
    fields of the base snapshot; and record 0 holds exactly these fields. *)
Theorem simulate_perturbation
    (env : Env) (latest_data : pyval float) (days : Z) (df : DataFrame float) :
  simulate_historical_data env latest_data days = Some df ->
  exists t0 a0 v0 p0,
    snapshot_fields env latest_data = Ok (t0, a0, v0, p0)
    /\ (forall i, 0 <= i < days ->
          exists r, nth_error df (Z.to_nat i) = Some r
                    /\ apr r = PyFloat (a0 * (1 + 0.01 * of_int (i mod 5)))%float
                    /\ tvl r = PyFloat (v0 * (1 - 0.005 * of_int (i mod 7)))%float
                    /\ sui_price r = PyFloat (p0 * (1 + 0.02 * of_int (i mod 3)))%float)
    /\ (0 < days ->
          exists r0, nth_error df 0 = Some r0
                     /\ apr r0 = PyFloat a0 /\ tvl r0 = PyFloat v0 /\ sui_price r0 = PyFloat p0).
Proof.
  intros E. destruct (simulate_some env latest_data days df E) as [t0 [a0 [v0 [p0 [S ->]]]]].
  exists t0, a0, v0, p0. split; [exact S | split].
  - intros i Hi. exists (day_record t0 a0 v0 p0 i).
    rewrite nth_error_map, range_nth by exact Hi.
    rewrite Binary64Facts.day_record_b64. repeat split.
  - intros Hd. exists (day_record t0 a0 v0 p0 0).
    change 0%nat with (Z.to_nat 0).
    rewrite nth_error_map, range_nth by lia. split; [reflexivity |].
    rewrite Binary64Facts.day_record_b64. cbn [apr tvl sui_price].
    rewrite Binary64Facts.apr_factor_0, Binary64Facts.tvl_factor_0, Binary64Facts.price_factor_0.
    rewrite !Binary64Facts.mul_1_r. repeat split.
Qed.

(** ** The rewards filter *)

Section Rewards.

Context {F : Type} `{FloatArith F}.

Lemma collect_rewards_filter (pool_id : string) (data : list (pyval F)) :
  Forall (well_formed pool_id) data ->
  exists rewards,
    collect_rewards pool_id data = Ok rewards
    /\ Forall2 record_of (filter (passes_filter pool_id) data) rewards.
Proof.
  induction 1 as [| reward data [d [-> W]] _ [rewards [IH1 IH2]]].
  - exists []. split; [reflexivity | constructor].
  - cbn [collect_rewards filter passes_filter]. unfold reward_selected. cbn [py_get bind].
    destruct (py_eq_str (dict_get d "pool" (PyStr "")) pool_id) eqn:P; cbn [andb bind].
    + destruct (W eq_refl) as [ct [C W']]. rewrite C. cbn [py_endswith bind].
      unfold NAVX_SUFFIX in *.
      destruct (endswith ct "::navx::NAVX") eqn:E.
      * destruct (W' eq_refl) as [[a A] [tp T]].
        unfold reward_record. cbn [py_get bind]. rewrite A, T. cbn [bind]. rewrite IH1. cbn [bind].
        eexists. split; [reflexivity |]. constructor; [| exact IH2].
        exists d, a, tp. cbn [amount token_price reward_timestamp].
        repeat split; try assumption.
        intros M. rewrite (dict_get_absent d "token_price" _ M) in T. cbn in T. congruence.
      * exists rewards. split; assumption.
    + exists rewards. split; assumption.
Qed.

(** C10 (amended): when the rewards endpoint answers 200 with an array on
    which nothing raises ([well_formed]), the fetcher returns, in order, one
    record for each reward that passes the filter and none for the others;
    the amount of a record is the upstream amount over 1e9 and its token
    price is 0.144426003098488 when the reward has none. *)
Theorem rewards_filter (data : list (pyval F)) (user_address pool_id : string) :
  Forall (well_formed pool_id) data ->
  exists rewards,
    fetch_rewards (Response 200 (Ok (PyList data))) user_address pool_id = (rewards, 200)
    /\ Forall2 record_of (filter (passes_filter pool_id) data) rewards.
Proof.
  intros W. destruct (collect_rewards_filter pool_id data W) as [rewards [C R]].
  exists rewards. split; [| exact R].
  unfold fetch_rewards. cbn [Z.eqb Pos.eqb negb bind py_slice2 py_iter]. rewrite C. reflexivity.
Qed.

End Rewards.

(** [endswith] is "ends with". *)
Lemma substring_all (s : string) : substring 0 (String.length s) s = s.
Proof. induction s as [| c s IH]; cbn; [reflexivity | now rewrite IH]. Qed.

Lemma substring_split (s : string) (i : nat) :
  (i <= String.length s)%nat ->
  s = (substring 0 i s ++ substring i (String.length s - i) s)%string.
Proof.
  revert i. induction s as [| c s IH]; intros i Hi.
  - cbn in Hi. replace i with O by lia. reflexivity.
  - destruct i as [| i].
    + cbn [substring append]. cbn [String.length Nat.sub]. now rewrite substring_all.
    + cbn [String.length] in *. cbn [substring append Nat.sub]. f_equal. apply IH. lia.
Qed.

Lemma length_append (s t : string) :
  String.length (s ++ t) = (String.length s + String.length t)%nat.
Proof. induction s as [| c s IH]; cbn; [reflexivity | now rewrite IH]. Qed.

Lemma substring_append_r (s t : string) :
  substring (String.length s) (String.length t) (s ++ t) = t.
Proof. induction s as [| c s IH]; cbn; [apply substring_all | exact IH]. Qed.

Lemma endswith_spec (s suffix : string) :
  endswith s suffix = true <-> exists prefix, s = (prefix ++ suffix)%string.
Proof.
  unfold endswith. rewrite andb_true_iff, Nat.leb_le, String.eqb_eq. split.
  - intros [L E]. exists (substring 0 (String.length s - String.length suffix)%nat s).
    pose proof (substring_split s (String.length s - String.length suffix)%nat) as X.
    replace (String.length s - (String.length s - String.length suffix))%nat
      with (String.length suffix) in X by lia.
    rewrite E in X. apply X. lia.
  - intros [prefix ->]. rewrite length_append. split; [lia |].
    replace (String.length prefix + String.length suffix - String.length suffix)%nat
      with (String.length prefix) by lia.
    apply substring_append_r.
Qed.

(** [float] reads the decimal digits and the spaces of every script, and
    nothing else beyond ASCII: Arabic-Indic digits, fullwidth digits between
    ideographic spaces, a superscript two, a file separator. *)
Lemma float_arabic_indic : @py_float float _ (PyStr "١٢٣") = Ok 123%float.
Proof. vm_compute. reflexivity. Qed.

Lemma float_fullwidth : @py_float float _ (PyStr "　１２.５　") = Ok 12.5%float.
Proof. vm_compute. reflexivity. Qed.

Lemma float_superscript : @py_float float _ (PyStr "²") = Raise ValueError.
Proof. vm_compute. reflexivity. Qed.

Lemma float_file_separator :
  @py_float float _ (PyStr (String (ascii_of_nat 28) "1")) = Raise ValueError.
Proof. vm_compute. reflexivity. Qed.

(** A reward whose amount is written in Arabic-Indic digits is returned. *)
Lemma rewards_arabic_indic_amount :
  @fetch_rewards float _
     (Response 200 (Ok (PyList [PyDict [("pool", PyStr "p");
                                        ("coin_type", PyStr "0xabc::navx::NAVX");
                                        ("amount", PyStr "١٢٣")]]))) "0xuser" "p"
  = ([ {| amount := (123 / 1000000000)%float; reward_timestamp := PyStr "";
          token_price := 0.144426003098488%float |} ], 200).
Proof. vm_compute. reflexivity. Qed.

(** A NAVX reward of the pool is kept and a reward in another coin is
    dropped, on binary64. *)
Lemma rewards_filter_witness :
  exists rewards,
    @fetch_rewards float _ (Response 200 (Ok (PyList [navx_reward; sui_reward]))) "0xuser" "p"
    = (rewards, 200)
    /\ Forall2 record_of (filter (passes_filter "p") [navx_reward; sui_reward]) rewards.
Proof.
  apply (rewards_filter [navx_reward; sui_reward] "0xuser" "p").
  repeat constructor.
  - eexists. split; [reflexivity |]. intros _. eexists. split; [reflexivity |].
    intros _. split; eexists; vm_compute; reflexivity.
  - eexists. split; [reflexivity |]. intros _. eexists. split; [reflexivity |].
    intros E. vm_compute in E. discriminate E.
Defined.

(** C10, as stated, fails: the first reward is of the pool and its coin type
    ends with "::navx::NAVX", yet it is not in the answer, because the amount
    of the second reward is not a number and the ValueError empties the
    whole answer. *)
Lemma rewards_filter_one_bad_amount :
  passes_filter "p" (@navx_reward float _) = true
  /\ @fetch_rewards float _ (Response 200 (Ok (PyList [navx_reward; broken_reward]))) "0xuser" "p"
     = ([], 200).
Proof. split; vm_compute; reflexivity. Qed.

(** A recent snapshot and 30 days, on binary64. *)
Lemma simulate_perturbation_witness :
  exists t0 a0 v0 p0,
    @snapshot_fields float _ utc recent_snapshot = Ok (t0, a0, v0, p0)
    /\ (forall i, 0 <= i < 30 ->
          exists r, nth_error (map (day_record 63835596800000000 (lit 4908 (-3))
                                      (of_int 52969686454591258 / lit 1 9)%F
                                      (lit 434833514 (-8))) (range 30)) (Z.to_nat i) = Some r
                    /\ apr r = PyFloat (a0 * (1 + 0.01 * of_int (i mod 5)))%float
                    /\ tvl r = PyFloat (v0 * (1 - 0.005 * of_int (i mod 7)))%float
                    /\ sui_price r = PyFloat (p0 * (1 + 0.02 * of_int (i mod 3)))%float)
    /\ (0 < 30 ->
          exists r0, nth_error (map (day_record 63835596800000000 (lit 4908 (-3))
                                       (of_int 52969686454591258 / lit 1 9)%F
                                       (lit 434833514 (-8))) (range 30)) 0 = Some r0
                     /\ apr r0 = PyFloat a0 /\ tvl r0 = PyFloat v0 /\ sui_price r0 = PyFloat p0).
Proof.
  apply (simulate_perturbation utc recent_snapshot 30). vm_compute. reflexivity.
Defined.

(** ** The regression library: least squares *)

Local Open Scope Q_scope.

Section Totals.
Context {A : Type}.
Implicit Types (f g h : A -> Q) (l : list A).

Lemma total_cons f a l : total f (a :: l) = f a + total f l.
Proof. reflexivity. Qed.

Lemma total_ext f g l : (forall s, In s l -> f s == g s) -> total f l == total g l.
Proof.
  induction l as [| a l IH]; intros E; [reflexivity |].
  rewrite !total_cons, (E a (or_introl eq_refl)), IH; [reflexivity |].
  intros s Hs. apply E. right. exact Hs.
Qed.

Lemma total_plus f g l : total (fun s => f s + g s) l == total f l + total g l.
Proof.
  induction l as [| a l IH]; [reflexivity |].
  rewrite !total_cons, IH. ring.
Qed.

Lemma total_scal c f l : total (fun s => c * f s) l == c * total f l.
Proof.
  induction l as [| a l IH]; [unfold total; cbn; ring |].
  rewrite !total_cons, IH. ring.
Qed.

Lemma count_cons a l : count (a :: l) == 1 + count l.
Proof.
  unfold count. cbn [List.length]. rewrite Nat2Z.inj_succ, <- Z.add_1_l, inject_Z_plus.
  reflexivity.
Qed.

Lemma count_pos l : l <> [] -> 0 < count l.
Proof.
  destruct l as [| a l]; [congruence | intros _].
  unfold count. change 0 with (inject_Z 0). rewrite <- Zlt_Qlt. cbn [List.length]. lia.
Qed.

Lemma total_const c l : total (fun _ => c) l == count l * c.
Proof.
  induction l as [| a l IH]; [unfold total, count; cbn; ring |].
  rewrite total_cons, count_cons, IH. ring.
Qed.

Lemma total_nonneg f l : (forall s, In s l -> 0 <= f s) -> 0 <= total f l.
Proof.
  induction l as [| a l IH]; intros P; [unfold total; cbn; lra |].
  rewrite total_cons.
  pose proof (P a (or_introl eq_refl)).
  assert (0 <= total f l) by (apply IH; intros s Hs; apply P; right; exact Hs).
  lra.
Qed.

Lemma total_zero f l :
  (forall s, In s l -> 0 <= f s) -> total f l == 0 -> forall s, In s l -> f s == 0.
Proof.
  induction l as [| a l IH]; intros P Z s Hs; [destruct Hs |].
  rewrite total_cons in Z.
  pose proof (P a (or_introl eq_refl)).
  assert (P' : forall s, In s l -> 0 <= f s) by (intros s' Hs'; apply P; right; exact Hs').
  pose proof (total_nonneg f l P').
  destruct Hs as [<- | Hs]; [lra |].
  apply IH; [exact P' | lra | exact Hs].
Qed.

Lemma square_nonneg (x : Q) : 0 <= x * x.
Proof. nra. Qed.

Lemma square_zero (x : Q) : x * x == 0 -> x == 0.
Proof. intros E. destruct (Qmult_integral _ _ E); assumption. Qed.

(** A sum of squares is zero only if each term is. *)
Lemma total_squares_zero f l :
  total (fun s => f s * f s) l == 0 -> forall s, In s l -> f s == 0.
Proof.
  intros Z s Hs. apply square_zero.
  apply (total_zero (fun s => f s * f s) l); [intros; apply square_nonneg | exact Z | exact Hs].
Qed.

Lemma total_centred f l : l <> [] -> total (centred f l) l == 0.
Proof.
  intros N. pose proof (count_pos l N) as C.
  rewrite (total_ext (centred f l) (fun s => f s + (fun _ => - mean f l) s)).
  - rewrite total_plus, total_const. unfold mean. field. lra.
  - intros s _. unfold centred. ring.
Qed.

Lemma total_lin3 (a b c : Q) f g h l :
  total (fun s => a * f s + b * g s + c * h s) l
  == a * total f l + b * total g l + c * total h l.
Proof.
  rewrite (total_plus (fun s => a * f s + b * g s) (fun s => c * h s)).
  rewrite (total_plus (fun s => a * f s) (fun s => b * g s)).
  rewrite !total_scal. reflexivity.
Qed.

End Totals.

Section LeastSquares.

Variable l : list sample.
Hypothesis nonempty : l <> [].

Lemma cov_nonneg (f : sample -> Q) : 0 <= cov f f l.
Proof. apply total_nonneg. intros s _. apply square_nonneg. Qed.

(** If the combination [a * x1 + b * x2] of the centred regressors has a
    zero sum of squares, it is zero on every sample, and so is its sum of
    products with any centred column. *)
Lemma degenerate (a b : Q) (h : sample -> Q) :
  a * a * cov x1 x1 l + 2 * a * b * cov x1 x2 l + b * b * cov x2 x2 l == 0 ->
  a * cov x1 h l + b * cov x2 h l == 0.
Proof.
  intros Z.
  set (z := fun s => a * centred x1 l s + b * centred x2 l s).
  assert (Zs : forall s, In s l -> z s == 0).
  { apply total_squares_zero. rewrite <- Z. unfold cov.
    rewrite <- total_lin3. apply total_ext. intros s _. unfold z. ring. }
  transitivity (total (fun s => z s * centred h l s) l).
  - unfold cov.
    rewrite <- (Qplus_0_r (a * total _ l + b * total _ l)).
    rewrite <- (Qmult_0_l (total (fun _ => 0) l)).
    rewrite <- total_lin3. apply total_ext. intros s _. unfold z. ring.
  - rewrite (total_ext _ (fun _ => 0)).
    + rewrite total_const. ring.
    + intros s Hs. rewrite (Zs s Hs). ring.
Qed.

Lemma lstsq_normal : normal l (lstsq l).
Proof.
  unfold normal, lstsq.
  set (Saa := cov x1 x1 l). set (Sab := cov x1 x2 l). set (Sbb := cov x2 x2 l).
  set (Sar := cov x1 target l). set (Sbr := cov x2 target l).
  cbn [intercept coef1 coef2].
  split; [reflexivity |].
  destruct (Qeq_bool (Saa * Sbb - Sab * Sab) 0) eqn:D.
  - apply Qeq_bool_iff in D.
    destruct (Qeq_bool (Saa + Sbb) 0) eqn:T.
    + apply Qeq_bool_iff in T. cbn [fst snd].
      pose proof (cov_nonneg x1) as P1. pose proof (cov_nonneg x2) as P2.
      fold Saa in P1. fold Sbb in P2.
      assert (Za : Saa == 0) by lra. assert (Zb : Sbb == 0) by lra.
      pose proof (degenerate 1 0 target) as E1. pose proof (degenerate 0 1 target) as E2.
      fold Saa Sab Sbb Sar Sbr in E1, E2.
      assert (Sar0 : 1 * Sar + 0 * Sbr == 0) by (apply E1; rewrite Za; ring).
      assert (Sbr0 : 0 * Sar + 1 * Sbr == 0) by (apply E2; rewrite Zb; ring).
      split; lra.
    + apply Qeq_bool_neq in T. cbn [fst snd].
      pose proof (degenerate Sbb (- Sab) target) as K1.
      pose proof (degenerate (- Sab) Saa target) as K2.
      fold Saa Sab Sbb Sar Sbr in K1, K2.
      assert (K1' : Sbb * Sar + - Sab * Sbr == 0).
      { apply K1. transitivity (Sbb * (Saa * Sbb - Sab * Sab)); [ring | rewrite D; ring]. }
      assert (K2' : - Sab * Sar + Saa * Sbr == 0).
      { apply K2. transitivity (Saa * (Saa * Sbb - Sab * Sab)); [ring | rewrite D; ring]. }
      split.
      * transitivity ((Sar * (Saa + Sbb) - (Sbb * Sar + - Sab * Sbr)) / (Saa + Sbb));
          [field; exact T | rewrite K1'; field; exact T].
      * transitivity ((Sbr * (Saa + Sbb) - (- Sab * Sar + Saa * Sbr)) / (Saa + Sbb));
          [field; exact T | rewrite K2'; field; exact T].
  - apply Qeq_bool_neq in D. cbn [fst snd]. split; field; exact D.
Qed.

Lemma residual_centred (m : model) (s : sample) :
  normal l m ->
  residual m s
  == 1 * centred target l s + - coef1 m * centred x1 l s + - coef2 m * centred x2 l s.
Proof.
  intros [I _]. unfold residual, eval, centred. rewrite I. ring.
Qed.

(** The residuals of a solution of the normal equations sum to zero and
    are orthogonal to both regressors. *)
Lemma normal_orthogonal (m : model) :
  normal l m ->
  total (residual m) l == 0
  /\ total (fun s => residual m s * x1 s) l == 0
  /\ total (fun s => residual m s * x2 s) l == 0.
Proof.
  intros N. pose proof N as [I [N1 N2]].
  assert (R0 : total (residual m) l == 0).
  { rewrite (total_ext _ _ l (fun s _ => residual_centred m s N)).
    rewrite total_lin3, !total_centred by exact nonempty. ring. }
  assert (Ra : total (fun s => residual m s * centred x1 l s) l == 0).
  { rewrite (total_ext _ (fun s => 1 * (centred x1 l s * centred target l s)
                                   + - coef1 m * (centred x1 l s * centred x1 l s)
                                   + - coef2 m * (centred x1 l s * centred x2 l s))).
    - rewrite total_lin3. fold (cov x1 target l) (cov x1 x1 l) (cov x1 x2 l).
      rewrite <- N1. ring.
    - intros s _. rewrite (residual_centred m s N). ring. }
  assert (Rb : total (fun s => residual m s * centred x2 l s) l == 0).
  { rewrite (total_ext _ (fun s => 1 * (centred x2 l s * centred target l s)
                                   + - coef1 m * (centred x1 l s * centred x2 l s)
                                   + - coef2 m * (centred x2 l s * centred x2 l s))).
    - rewrite total_lin3. fold (cov x2 target l) (cov x1 x2 l) (cov x2 x2 l).
      rewrite <- N2. ring.
    - intros s _. rewrite (residual_centred m s N). ring. }
  split; [exact R0 | split].
  - rewrite (total_ext _ (fun s => residual m s * centred x1 l s + mean x1 l * residual m s)).
    + rewrite total_plus, total_scal, Ra, R0. ring.
    + intros s _. unfold centred. ring.
  - rewrite (total_ext _ (fun s => residual m s * centred x2 l s + mean x2 l * residual m s)).
    + rewrite total_plus, total_scal, Rb, R0. ring.
    + intros s _. unfold centred. ring.
Qed.

(** Against a plane with orthogonal residuals, the residual sum of squares
    of any plane splits into that of the former and the squared distance
    between the two on the samples. *)
Lemma rss_split (m m' : model) :
  total (residual m) l == 0 ->
  total (fun s => residual m s * x1 s) l == 0 ->
  total (fun s => residual m s * x2 s) l == 0 ->
  rss m' l
  == rss m l
     + total (fun s => (eval m (x1 s) (x2 s) - eval m' (x1 s) (x2 s))
                       * (eval m (x1 s) (x2 s) - eval m' (x1 s) (x2 s))) l.
Proof.
  intros R0 R1 R2. unfold rss.
  set (delta := fun s => eval m (x1 s) (x2 s) - eval m' (x1 s) (x2 s)).
  rewrite (total_ext (fun s => residual m' s * residual m' s)
             (fun s => (residual m s * residual m s + delta s * delta s)
                       + ((2 * (intercept m - intercept m')) * residual m s
                          + (2 * (coef1 m - coef1 m')) * (residual m s * x1 s)
                          + (2 * (coef2 m - coef2 m')) * (residual m s * x2 s)))).
  - rewrite total_plus, total_plus, total_lin3, R0, R1, R2.
    unfold delta. ring.
  - intros s _. unfold delta, residual, eval. ring.
Qed.

Theorem lstsq_least_squares : least_squares (lstsq l) l.
Proof.
  destruct (normal_orthogonal (lstsq l) lstsq_normal) as [R0 [R1 R2]].
  intros m'. rewrite (rss_split (lstsq l) m' R0 R1 R2).
  pose proof (total_nonneg
                (fun s => (eval (lstsq l) (x1 s) (x2 s) - eval m' (x1 s) (x2 s))
                          * (eval (lstsq l) (x1 s) (x2 s) - eval m' (x1 s) (x2 s))) l
                (fun s _ => square_nonneg _)).
  lra.
Qed.

(** Two least-squares planes agree on every sample. *)
Theorem least_squares_fitted (m : model) (s : sample) :
  least_squares m l -> In s l ->
  eval m (x1 s) (x2 s) == eval (lstsq l) (x1 s) (x2 s).
Proof.
  intros L Hs.
  destruct (normal_orthogonal (lstsq l) lstsq_normal) as [R0 [R1 R2]].
  pose proof (rss_split (lstsq l) m R0 R1 R2) as E.
  pose proof (L (lstsq l)) as Le.
  pose proof (total_nonneg
                (fun s => (eval (lstsq l) (x1 s) (x2 s) - eval m (x1 s) (x2 s))
                          * (eval (lstsq l) (x1 s) (x2 s) - eval m (x1 s) (x2 s))) l
                (fun s _ => square_nonneg _)) as P.
  pose proof (total_squares_zero
                (fun s => eval (lstsq l) (x1 s) (x2 s) - eval m (x1 s) (x2 s)) l) as D.
  cbv beta in D. specialize (D ltac:(lra) s Hs). lra.
Qed.

End LeastSquares.

(** ** The predictor on a numeric series *)

Section ExactPredictor.

Lemma samples_of_series (series : list record) :
  samples (map (fun r => (sui_price r, tvl r)) (frame_of series)) (map apr (frame_of series))
  = Ok (map sample_of series).
Proof.
  unfold frame_of. induction series as [| r series IH]; [reflexivity |].
  cbn in *. rewrite IH. reflexivity.
Qed.

Lemma targets_of_series (series : list record) :
  mapM to_num (map apr (frame_of series)) = Ok (map r_apr series).
Proof.
  unfold frame_of. induction series as [| r series IH]; [reflexivity |].
  cbn in *. rewrite IH. reflexivity.
Qed.

Lemma skipn_last {A : Type} (l : list A) (k : nat) (a : A) :
  nth_error l k = Some a -> List.length l = S k -> skipn k l = [a].
Proof.
  revert k. induction l as [| b l IH]; intros k E L; [discriminate L |].
  destruct k as [| k]; cbn in *.
  - destruct l; [congruence | discriminate L].
  - apply IH; [exact E | lia].
Qed.

Lemma last_slice_final {A : Type} (l : list A) (a : A) :
  nth_error l (List.length l - 1) = Some a -> last_slice l = [a].
Proof.
  intros E. unfold last_slice. apply skipn_last; [exact E |].
  destruct l; [discriminate E | cbn; lia].
Qed.

Lemma last_slice_map {A B : Type} (f : A -> B) (l : list A) :
  last_slice (map f l) = map f (last_slice l).
Proof. unfold last_slice. rewrite length_map, skipn_map. reflexivity. Qed.

(** What the predictor computes on a series of 5 numeric records or more:
    the plane [lstsq] at the final record against 1.1 times the mean. *)
Lemma predict_exact (series : list record) (final : record) :
  (5 <= List.length series)%nat ->
  nth_error series (List.length series - 1) = Some final ->
  predict_optimal_stake (Some (frame_of series))
  = negb (Qle_bool (eval (lstsq (map sample_of series)) (r_sui_price final) (r_tvl final))
                   (mean r_apr series * (11 # 10))).
Proof.
  intros L E. unfold predict_optimal_stake.
  assert (G : (List.length (frame_of series) <? 5)%nat = false).
  { unfold frame_of. rewrite length_map. apply Nat.ltb_ge. exact L. }
  rewrite G. cbn [lr_fit lr_predict series_mean exact_models].
  unfold fit. rewrite samples_of_series. cbn [bind].
  destruct (map sample_of series) as [| s0 ss] eqn:M.
  { destruct series; [cbn in L; lia | discriminate M]. }
  rewrite <- M. cbn [bind].
  rewrite last_slice_map. unfold frame_of at 1. rewrite last_slice_map.
  rewrite (last_slice_final series final E).
  cbn [map predict_rows mapM fst snd sui_price tvl to_num bind].
  unfold series_mean_exact. rewrite targets_of_series. cbn [bind].
  destruct (map r_apr series) as [| a0 aa] eqn:A.
  { destruct series; [cbn in L; lia | discriminate A]. }
  rewrite <- A. cbn [bind index0].
  unfold mean, total, count. rewrite length_map. reflexivity.
Qed.

(** The gate, for any least-squares plane. *)
Lemma predict_gate (series : list record) (final : record) (m : model) :
  (5 <= List.length series)%nat ->
  nth_error series (List.length series - 1) = Some final ->
  least_squares m (map sample_of series) ->
  predict_optimal_stake (Some (frame_of series)) = true
  <-> mean r_apr series * (11 # 10) < eval m (r_sui_price final) (r_tvl final).
Proof.
  intros L E LS. rewrite (predict_exact series final L E).
  assert (N : map sample_of series <> []).
  { destruct series; [cbn in L; lia | discriminate]. }
  pose proof (least_squares_fitted (map sample_of series) N m (sample_of final) LS
                (in_map sample_of series final (nth_error_In _ _ E))) as F.
  cbn [sample_of x1 x2] in F. rewrite <- F.
  rewrite negb_true_iff, <- not_true_iff_false, Qle_bool_iff.
  split; [apply Qnot_le_lt | apply Qlt_not_le].
Qed.

End ExactPredictor.


(** The boundary of the comparison is the rounded product: with a predicted
    apr of -55.0 and a mean of -50.0 the answer is [True], because
    -50.0 * 1.1 is -55.000000000000007 in binary64. *)
Lemma predict_rounded_boundary
    (lib : LinearModels float) (df : DataFrame float) (final : row float) (model : lr_model) :
  (5 <= List.length df)%nat ->
  nth_error df (List.length df - 1) = Some final ->
  lr_fit (map (fun r => (sui_price r, tvl r)) df) (map apr df) = Ok model ->
  lr_predict model [(sui_price final, tvl final)] = Ok [(-55)%float] ->
  series_mean (map apr df) = Ok (-50)%float ->
  predict_optimal_stake (Some df) = true.
Proof.
  intros L E Fit P M. unfold predict_optimal_stake.
  assert (G : (List.length df <? 5)%nat = false) by (apply Nat.ltb_ge; exact L).
  rewrite G, last_slice_map, (last_slice_final df final E). cbn [map].
  rewrite Fit. cbn [bind]. rewrite P. cbn [bind]. rewrite M. reflexivity.
Qed.

Lemma mean_flat (c t p : Q) (n : nat) : (0 < n)%nat -> mean r_apr (flat c t p n) == c.
Proof.
  intros N. unfold mean.
  rewrite (total_ext r_apr (fun _ => c)).
  - rewrite total_const.
    assert (P : 0 < count (flat c t p n)).
    { apply count_pos. destruct n; [lia | discriminate]. }
    field. lra.
  - intros s Hs. apply repeat_spec in Hs. subst s. reflexivity.
Qed.

Lemma flat_least_squares (c t p : Q) (n : nat) :
  least_squares {| intercept := c; coef1 := 0; coef2 := 0 |} (map sample_of (flat c t p n)).
Proof.
  intros m'.
  assert (Z : rss {| intercept := c; coef1 := 0; coef2 := 0 |} (map sample_of (flat c t p n)) == 0).
  { unfold rss. rewrite (total_ext _ (fun _ => 0)).
    - rewrite total_const. ring.
    - intros s Hs. apply in_map_iff in Hs. destruct Hs as [r [<- Hr]].
      apply repeat_spec in Hr. subst r. unfold residual, eval. cbn. ring. }
  rewrite Z. apply total_nonneg. intros s _. apply square_nonneg.
Qed.

(** C8 (amended): on a flat series of 5 records or more whose constant apr
    is not negative the predictor answers [False] (exact arithmetic). *)
Theorem predict_flat (c t p : Q) (n : nat) :
  (5 <= n)%nat -> 0 <= c ->
  predict_optimal_stake (Some (frame_of (flat c t p n))) = false.
Proof.
  intros N C. apply not_true_is_false. intros T.
  assert (L : (5 <= List.length (flat c t p n))%nat) by (unfold flat; rewrite repeat_length; exact N).
  assert (E : nth_error (flat c t p n) (List.length (flat c t p n) - 1)
              = Some {| r_apr := c; r_tvl := t; r_sui_price := p |}).
  { unfold flat. rewrite repeat_length. apply nth_error_repeat. lia. }
  apply (predict_gate _ _ _ L E (flat_least_squares c t p n)) in T.
  rewrite mean_flat in T by lia. unfold eval in T. cbn in T. lra.
Qed.

(** C8, as stated, fails: on the flat series of five records with apr -1
    the fitted apr is the mean, -1, which is strictly greater than 1.1 times
    the mean, -1.1, and the predictor answers [True]. *)
Lemma predict_flat_negative :
  (5 <= List.length (flat (-1) 1 1 5))%nat
  /\ predict_optimal_stake (Some (frame_of (flat (-1) 1 1 5))) = true.
Proof. split; [cbn; lia | vm_compute; reflexivity]. Qed.


Lemma predict_flat_witness :
  predict_optimal_stake (Some (frame_of (flat (4908 # 1000) 2 3 5))) = false.
Proof.
  apply predict_flat; [lia | unfold Qle; cbn; lia].
Defined.

(** * Further properties *)

Local Close Scope Q_scope.

(** * Further properties of the pool fetcher *)

Section PoolFetcher.

Context {F : Type} `{FloatArith F} (env : Env).

Lemma matched_pool_coherent (pool : pyval F) (days : Z) (r : volo_body F * Z) :
  matched_pool env pool days = Ok r -> coherent r.
Proof.
  unfold matched_pool. destruct (simulate_historical_data env pool days) as [df |].
  - intros E. repeat (apply bind_ok in E; destruct E as [? [? E]]).
    injection E as <-. left. eauto.
  - intros E. injection E as <-. right. eauto.
Qed.

Lemma scan_pools_coherent (pool_id : string) (days : Z) (data : list (pyval F))
    (r : volo_body F * Z) :
  scan_pools env pool_id days data = Ok r -> coherent r.
Proof.
  induction data as [| pool data IH]; cbn [scan_pools].
  - rewrite default_pool_fails. intros E. injection E as <-. right. eauto.
  - intros E. apply bind_ok in E. destruct E as [ct [_ E]].
    destruct (py_eq_str ct pool_id); [apply (matched_pool_coherent _ _ _ E) | apply IH, E].
Qed.

(** X1: whatever the upstream does, the pool fetcher answers either data
    (latest and historical) with status 200 or an error with status 500. *)
Theorem pool_fetch_status (up : upstream F) (pool_id : string) (days : Z) :
  (exists latest df, fetch_volo_data env up pool_id days = (VoloData latest df, 200))
  \/ (exists err, fetch_volo_data env up pool_id days = (VoloError err, 500)).
Proof.
  unfold fetch_volo_data. destruct up as [e | status json]; [right; eauto |].
  destruct (negb (status =? 200)); [right; eauto |].
  destruct (bind json _) as [r | e] eqn:E; [| right; eauto].
  repeat (apply bind_ok in E; destruct E as [? [? E]]).
  apply (scan_pools_coherent _ _ _ _ E).
Qed.

(** X2: a failed call is reported with its exception, a status other than
    200 with that status and without reading the body, an undecodable body
    with its exception, and a body that is neither an array nor a str with
    TypeError (from the slice in the debug log); all with status 500. *)
Theorem pool_fetch_upstream_failure (pool_id : string) (days : Z) :
  (forall e, fetch_volo_data env (@Unreachable F e) pool_id days = (VoloError (FetchFailed e), 500))
  /\ (forall status json, status <> 200 ->
        fetch_volo_data env (Response status json) pool_id days
        = (VoloError (HttpError status), 500))
  /\ (forall e, fetch_volo_data env (Response 200 (Raise e)) pool_id days
                = (VoloError (FetchFailed e), 500))
  /\ (forall body, match body with PyList _ | PyStr _ => False | _ => True end ->
        fetch_volo_data env (Response 200 (Ok body)) pool_id days
        = (VoloError (FetchFailed TypeError), 500)).
Proof.
  repeat split.
  - intros status json Hs. unfold fetch_volo_data.
    apply Z.eqb_neq in Hs. rewrite Hs. reflexivity.
  - intros body Hb. destruct body; try contradiction; reflexivity.
Qed.

(** The matched path on an entry that parses and a series that is not empty. *)
Lemma matched_pool_ok (d : dict F) (days : Z) (t0 : datetime) (a v p : F) (df : DataFrame F) :
  snapshot_fields env (PyDict d) = Ok (t0, a, v, p) ->
  simulate_historical_data env (PyDict d) days = Some df ->
  df <> [] ->
  matched_pool env (PyDict d) days
  = Ok (VoloData {| latest_apr := a; latest_tvl := v; latest_sui_price := p;
                    latest_timestamp :=
                      dict_get d "lastUpdateTimestamp" (PyStr (str_of_int (now_ms env))) |}
                 df, 200).
Proof.
  intros S E N. unfold matched_pool. rewrite E.
  destruct df as [| r l]; [congruence |]. cbn [at0 bind].
  unfold snapshot_fields in S.
  repeat (apply bind_ok in S; destruct S as [? [? S]]).
  cbn [py_get] in *.
  repeat match goal with
         | X : Ok _ = Ok _ |- _ => injection X as X; subst
         end.
  repeat (cbn [bind];
          match goal with
          | X : ?c = Ok _ |- context [bind ?c _] => rewrite X
          end).
  reflexivity.
Qed.

Lemma range_positive (days : Z) : range days <> [] -> 0 < days.
Proof.
  intros N. destruct (Z_lt_le_dec 0 days) as [L | L]; [exact L |].
  rewrite (range_nonpositive days L) in N. congruence.
Qed.

(** A snapshot parses only with a numeric timestamp that is present. *)
Lemma snapshot_numeric_timestamp (d : dict F) (t0 : datetime) (a v p : F) :
  snapshot_fields env (PyDict d) = Ok (t0, a, v, p) ->
  dict_mem d "lastUpdateTimestamp" = true
  /\ exists n, as_number (dict_get d "lastUpdateTimestamp" PyNone) = Some n.
Proof.
  intros S. unfold snapshot_fields in S.
  apply bind_ok in S. destruct S as [ts [G S]].
  apply bind_ok in S. destruct S as [q [T _]].
  cbn [py_get] in G. injection G as G.
  destruct (dict_mem d "lastUpdateTimestamp") eqn:M.
  - split; [reflexivity |].
    assert (Ed : forall x y, dict_get d "lastUpdateTimestamp" x = dict_get d "lastUpdateTimestamp" y).
    { clear - M. induction d as [| [k w] d IH]; [discriminate M |].
      intros x y. cbn in *. destruct (String.eqb k "lastUpdateTimestamp"); [reflexivity |].
      apply IH. exact M. }
    rewrite (Ed PyNone (PyStr (str_of_int (now_ms env)))), G.
    unfold py_truediv in T. destruct (as_number ts) as [n |]; [eauto | discriminate T].
  - rewrite (dict_get_absent d _ _ M) in G. subst ts. discriminate T.
Qed.

(** What a success of the loop tells. *)
Lemma scan_pools_success (pool_id : string) (days : Z) (data : list (pyval F))
    (latest : Latest F) (df : DataFrame F) :
  scan_pools env pool_id days data = Ok (VoloData latest df, 200) ->
  exists (pre : list (pyval F)) d rest t0 a v p,
    data = (pre ++ PyDict d :: rest)%list
    /\ forallb is_dict pre = true
    /\ existsb (entry_for pool_id) pre = false
    /\ entry_for pool_id (PyDict d) = true
    /\ snapshot_fields env (PyDict d) = Ok (t0, a, v, p)
    /\ 0 < days
    /\ df = map (day_record t0 a v p) (range days)
    /\ latest = {| latest_apr := a; latest_tvl := v; latest_sui_price := p;
                   latest_timestamp :=
                     dict_get d "lastUpdateTimestamp" (PyStr (str_of_int (now_ms env))) |}.
Proof.
  induction data as [| pool data IH]; cbn [scan_pools].
  - rewrite default_pool_fails. discriminate.
  - intros E. apply bind_ok in E. destruct E as [ct [G E]].
    destruct pool; try discriminate G. cbn [py_get] in G. injection G as <-.
    destruct (py_eq_str (dict_get d "coinType" PyNone) pool_id) eqn:M.
    + pose proof E as E'. unfold matched_pool in E'.
      destruct (simulate_historical_data env (PyDict d) days) as [df' |] eqn:Sim;
        [| discriminate E'].
      destruct (simulate_some env (PyDict d) days df' Sim) as [t0 [a [v [p [S Edf]]]]].
      destruct df' as [| r l]; [discriminate E' |]. clear E'.
      rewrite (matched_pool_ok d days t0 a v p (r :: l) S Sim) in E by discriminate.
      injection E as <- <-.
      exists [], d, data, t0, a, v, p. cbn [app forallb existsb entry_for].
      repeat split; try assumption.
      apply range_positive. intros R. rewrite R in Edf. discriminate Edf.
    + destruct (IH E) as [pre [d' [rest [t0 [a [v [p [-> [D [N R]]]]]]]]]].
      exists (PyDict d :: pre), d', rest, t0, a, v, p.
      cbn [app forallb existsb entry_for is_dict]. rewrite M, D, N. cbn [andb orb].
      repeat split; try reflexivity; apply R.
Qed.

Lemma fetch_success (up : upstream F) (pool_id : string) (days : Z)
    (latest : Latest F) (df : DataFrame F) :
  fetch_volo_data env up pool_id days = (VoloData latest df, 200) ->
  exists data, up = Response 200 (Ok (PyList data))
               /\ scan_pools env pool_id days data = Ok (VoloData latest df, 200).
Proof.
  unfold fetch_volo_data. destruct up as [e | status json]; [discriminate |].
  destruct (status =? 200) eqn:St; cbn [negb]; [| discriminate].
  apply Z.eqb_eq in St. subst status.
  destruct json as [body | e]; cbn [bind]; [| discriminate].
  destruct body; cbn [py_slice2 py_iter bind]; try discriminate.
  - destruct (characters s) as [| c l]; cbn [map scan_pools py_get bind].
    + rewrite default_pool_fails. discriminate.
    + discriminate.
  - destruct (scan_pools env pool_id days l) as [r |] eqn:E; [| discriminate].
    intros ->. exists l. split; [reflexivity | exact E].
Qed.

(** X3: the pool fetcher succeeds only on an array whose first entry for the
    pool carries a lastUpdateTimestamp that is present and is a number (int,
    float or bool), and only with days > 0; in particular the fallback for
    an absent pool never succeeds. *)
Theorem pool_fetch_success_needs_entry (up : upstream F) (pool_id : string) (days : Z)
    (latest : Latest F) (df : DataFrame F) :
  fetch_volo_data env up pool_id days = (VoloData latest df, 200) ->
  exists (pre : list (pyval F)) d rest,
    up = Response 200 (Ok (PyList (pre ++ PyDict d :: rest)%list))
    /\ existsb (entry_for pool_id) pre = false
    /\ entry_for pool_id (PyDict d) = true
    /\ dict_mem d "lastUpdateTimestamp" = true
    /\ (exists n, as_number (dict_get d "lastUpdateTimestamp" PyNone) = Some n)
    /\ 0 < days.
Proof.
  intros E. destruct (fetch_success up pool_id days latest df E) as [data [-> Sc]].
  destruct (scan_pools_success pool_id days data latest df Sc)
    as [pre [d [rest [t0 [a [v [p [-> [_ [N [M [S [Hd _]]]]]]]]]]]]].
  destruct (snapshot_numeric_timestamp d t0 a v p S) as [Mem Num].
  exists pre, d, rest. repeat split; assumption.
Qed.

(** X4: the scan stops at the first entry for the pool: what follows it in
    the array has no effect on the answer. *)
Theorem pool_fetch_first_match_wins
    (pre rest rest' : list (pyval F)) (d : dict F) (pool_id : string) (days : Z) :
  entry_for pool_id (PyDict d) = true ->
  fetch_volo_data env (Response 200 (Ok (PyList (pre ++ PyDict d :: rest)))) pool_id days
  = fetch_volo_data env (Response 200 (Ok (PyList (pre ++ PyDict d :: rest')))) pool_id days.
Proof.
  intros M. unfold fetch_volo_data. cbn [Z.eqb Pos.eqb negb bind py_slice2 py_iter].
  assert (E : scan_pools env pool_id days (pre ++ PyDict d :: rest)
              = scan_pools env pool_id days (pre ++ PyDict d :: rest')).
  { induction pre as [| pool pre IH]; cbn [app scan_pools].
    - cbn [py_get bind]. cbn [entry_for] in M. rewrite M. reflexivity.
    - destruct (py_get pool "coinType" PyNone) as [ct |]; cbn [bind]; [| reflexivity].
      destruct (py_eq_str ct pool_id); [reflexivity | exact IH]. }
  rewrite E. reflexivity.
Qed.

(** X5: an element that is not an object and comes before any entry for the
    pool makes the fetcher answer 500 with AttributeError. *)
Theorem pool_fetch_non_object_entry
    (pre rest : list (pyval F)) (v : pyval F) (pool_id : string) (days : Z) :
  forallb is_dict pre = true ->
  existsb (entry_for pool_id) pre = false ->
  is_dict v = false ->
  fetch_volo_data env (Response 200 (Ok (PyList (pre ++ v :: rest)))) pool_id days
  = (VoloError (FetchFailed AttributeError), 500).
Proof.
  intros D N V. unfold fetch_volo_data. cbn [Z.eqb Pos.eqb negb bind py_slice2 py_iter].
  rewrite (scan_pools_skip env pool_id days pre (v :: rest) D N).
  destruct v; try discriminate V; reflexivity.
Qed.

(** X6: with days <= 0 an entry for the pool that parses yields an empty
    series, and the fetcher answers 500 with KeyError: the log line reads
    df['apr'][0]. *)
Theorem pool_fetch_no_days
    (pre rest : list (pyval F)) (d : dict F) (pool_id : string) (days : Z)
    (t0 : datetime) (a v p : F) :
  forallb is_dict pre = true ->
  existsb (entry_for pool_id) pre = false ->
  entry_for pool_id (PyDict d) = true ->
  snapshot_fields env (PyDict d) = Ok (t0, a, v, p) ->
  days <= 0 ->
  fetch_volo_data env (Response 200 (Ok (PyList (pre ++ PyDict d :: rest)))) pool_id days
  = (VoloError (FetchFailed KeyError), 500).
Proof.
  intros D N M S Hd. unfold fetch_volo_data. cbn [Z.eqb Pos.eqb negb bind py_slice2 py_iter].
  rewrite (scan_pools_skip env pool_id days pre (PyDict d :: rest) D N).
  cbn [scan_pools py_get bind]. cbn [entry_for] in M. rewrite M.
  unfold matched_pool.
  rewrite (simulate_total env (PyDict d) days t0 a v p S) by lia.
  rewrite (range_nonpositive days Hd). reflexivity.
Qed.

(** X7: on success the historical series has exactly [days] records, and
    record [i] holds the fields of [latest] times the factors of day [i]:
    [1 + 0.01 * (i mod 5)] for the apr, [1 - 0.005 * (i mod 7)] for the tvl
    and [1 + 0.02 * (i mod 3)] for the price. *)
Theorem pool_fetch_series (up : upstream F) (pool_id : string) (days : Z)
    (latest : Latest F) (df : DataFrame F) :
  fetch_volo_data env up pool_id days = (VoloData latest df, 200) ->
  List.length df = Z.to_nat days
  /\ forall i, 0 <= i < days ->
       exists r, nth_error df (Z.to_nat i) = Some r
                 /\ apr r
                    = PyFloat (latest_apr latest * (of_int 1 + lit 1 (-2) * of_int (i mod 5)))%F
                 /\ tvl r
                    = PyFloat (latest_tvl latest * (of_int 1 - lit 5 (-3) * of_int (i mod 7)))%F
                 /\ sui_price r
                    = PyFloat (latest_sui_price latest
                               * (of_int 1 + lit 2 (-2) * of_int (i mod 3)))%F.
Proof.
  intros E. destruct (fetch_success up pool_id days latest df E) as [data [_ Sc]].
  destruct (scan_pools_success pool_id days data latest df Sc)
    as [pre [d [rest [t0 [a [v [p [_ [_ [_ [_ [_ [_ [-> ->]]]]]]]]]]]]]].
  split; [rewrite length_map; apply range_length |].
  intros i Hi. exists (day_record t0 a v p i).
  rewrite nth_error_map, range_nth by exact Hi. repeat split.
Qed.

End PoolFetcher.

Lemma timed_sui_fetch :
  fetch_volo_data utc (Response 200 (Ok (PyList [timed_sui_entry]))) "0x2::sui::SUI" 30
  = (VoloData timed_sui_latest (timed_sui_series 30), 200).
Proof. vm_compute. reflexivity. Qed.

Lemma pool_fetch_success_needs_entry_witness :
  exists (pre : list (pyval float)) d rest,
    Response 200 (Ok (PyList [timed_sui_entry]))
    = Response 200 (Ok (PyList (pre ++ PyDict d :: rest)%list))
    /\ existsb (entry_for "0x2::sui::SUI") pre = false
    /\ entry_for "0x2::sui::SUI" (PyDict d) = true
    /\ dict_mem d "lastUpdateTimestamp" = true
    /\ (exists n, as_number (dict_get d "lastUpdateTimestamp" PyNone) = Some n)
    /\ 0 < 30.
Proof.
  apply (pool_fetch_success_needs_entry utc _ "0x2::sui::SUI" 30
           timed_sui_latest (timed_sui_series 30)).
  exact timed_sui_fetch.
Defined.

Lemma pool_fetch_first_match_wins_witness :
  @fetch_volo_data float _ utc
     (Response 200 (Ok (PyList ([sui_entry] ++ PyDict [("coinType", PyStr "0x2::sui::SUI")]
                                  :: [timed_sui_entry])%list))) "0x2::sui::SUI" 30
  = fetch_volo_data utc
     (Response 200 (Ok (PyList ([sui_entry] ++ PyDict [("coinType", PyStr "0x2::sui::SUI")]
                                  :: [])%list))) "0x2::sui::SUI" 30.
Proof.
  apply pool_fetch_first_match_wins. reflexivity.
Defined.

Lemma pool_fetch_non_object_entry_witness :
  @fetch_volo_data float _ utc
     (Response 200 (Ok (PyList ([] ++ PyNone :: [timed_sui_entry])%list))) "0x2::sui::SUI" 30
  = (VoloError (FetchFailed AttributeError), 500).
Proof.
  apply pool_fetch_non_object_entry; reflexivity.
Defined.

Lemma pool_fetch_no_days_witness :
  @fetch_volo_data float _ utc
     (Response 200 (Ok (PyList ([] ++ timed_sui_entry :: [])%list))) "0x2::sui::SUI" 0
  = (VoloError (FetchFailed KeyError), 500).
Proof.
  apply (pool_fetch_no_days utc [] [] _ "0x2::sui::SUI" 0 63835596800000000 (lit 10 0)
           (of_int 52969686454591258 / lit 1 9)%F (lit 434833514 (-8)));
    first [reflexivity | lia | vm_compute; reflexivity].
Defined.

Lemma pool_fetch_series_witness :
  List.length (timed_sui_series 30) = Z.to_nat 30
  /\ forall i, 0 <= i < 30 ->
       exists r, nth_error (timed_sui_series 30) (Z.to_nat i) = Some r
                 /\ apr r
                    = PyFloat (latest_apr timed_sui_latest
                               * (of_int 1 + lit 1 (-2) * of_int (i mod 5)))%F
                 /\ tvl r
                    = PyFloat (latest_tvl timed_sui_latest
                               * (of_int 1 - lit 5 (-3) * of_int (i mod 7)))%F
                 /\ sui_price r
                    = PyFloat (latest_sui_price timed_sui_latest
                               * (of_int 1 + lit 2 (-2) * of_int (i mod 3)))%F.
Proof.
  apply (pool_fetch_series utc (Response 200 (Ok (PyList [timed_sui_entry]))) "0x2::sui::SUI" 30).
  exact timed_sui_fetch.
Defined.

(** X8: when the endpoint /api/volo-data answers data, the series has 30
    records and its first record holds exactly the apr, tvl and sui_price
    of [latest] (binary64). *)
Theorem volo_endpoint_series (env : Env) (up : upstream float)
    (latest : Latest float) (df : DataFrame float) :
  get_volo_data env up = (VoloData latest df, 200) ->
  List.length df = 30%nat
  /\ exists r0, nth_error df 0 = Some r0
                /\ apr r0 = PyFloat (latest_apr latest)
                /\ tvl r0 = PyFloat (latest_tvl latest)
                /\ sui_price r0 = PyFloat (latest_sui_price latest).
Proof.
  unfold get_volo_data. intros E.
  destruct (fetch_success env up "0x2::sui::SUI" 30 latest df E) as [data [_ Sc]].
  destruct (scan_pools_success env "0x2::sui::SUI" 30 data latest df Sc)
    as [pre [d [rest [t0 [a [v [p [_ [_ [_ [_ [_ [_ [-> ->]]]]]]]]]]]]]].
  split; [rewrite length_map; apply range_length |].
  exists (day_record t0 a v p 0). split; [reflexivity |].
  rewrite Binary64Facts.day_record_b64.
  cbn [apr tvl sui_price latest_apr latest_tvl latest_sui_price].
  rewrite Binary64Facts.apr_factor_0, Binary64Facts.tvl_factor_0, Binary64Facts.price_factor_0.
  rewrite !Binary64Facts.mul_1_r. repeat split.
Qed.

Lemma volo_endpoint_series_witness :
  List.length (timed_sui_series 30) = 30%nat
  /\ exists r0, nth_error (timed_sui_series 30) 0 = Some r0
                /\ apr r0 = PyFloat (latest_apr timed_sui_latest)
                /\ tvl r0 = PyFloat (latest_tvl timed_sui_latest)
                /\ sui_price r0 = PyFloat (latest_sui_price timed_sui_latest).
Proof.
  apply (volo_endpoint_series utc (Response 200 (Ok (PyList [timed_sui_entry])))).
  exact timed_sui_fetch.
Defined.

(** * Further properties of the generator *)

Section GeneratorMore.

Context {F : Type} `{FloatArith F} (env : Env).

(** X9: the generator returns a series exactly when the snapshot parses and,
    for days > 0, the oldest day is not before [datetime.min]. *)
Theorem simulate_succeeds_iff (latest_data : pyval F) (days : Z) :
  (exists df, simulate_historical_data env latest_data days = Some df)
  <-> exists t0 a v p,
        snapshot_fields env latest_data = Ok (t0, a, v, p)
        /\ (0 < days -> 0 <= t0 - (days - 1) * US_PER_DAY).
Proof.
  split.
  - intros [df E].
    destruct (simulate_some env latest_data days df E) as [t0 [a [v [p [S _]]]]].
    exists t0, a, v, p. split; [exact S |]. intros Hd.
    destruct (Z_lt_le_dec (t0 - (days - 1) * US_PER_DAY) 0) as [B | B]; [| exact B].
    rewrite (simulate_before_min env latest_data days t0 a v p S Hd B) in E. discriminate E.
  - intros [t0 [a [v [p [S R]]]]]. eexists.
    apply (simulate_total env latest_data days t0 a v p S).
    intros Hd. specialize (R Hd).
    pose proof (snapshot_base_time env latest_data t0 a v p S) as B.
    apply in_datetime_range_spec in B. apply in_datetime_range_spec.
    unfold US_PER_DAY in *. lia.
Qed.

Lemma day_record_period (t0 : datetime) (a v p : F) (i : Z) :
  apr (day_record t0 a v p (i + 105)) = apr (day_record t0 a v p i)
  /\ tvl (day_record t0 a v p (i + 105)) = tvl (day_record t0 a v p i)
  /\ sui_price (day_record t0 a v p (i + 105)) = sui_price (day_record t0 a v p i).
Proof.
  unfold day_record. cbn [apr tvl sui_price].
  replace ((i + 105) mod 5) with (i mod 5)
    by (replace (i + 105) with (i + 21 * 5) by lia; symmetry; apply Z_mod_plus_full).
  replace ((i + 105) mod 7) with (i mod 7)
    by (replace (i + 105) with (i + 15 * 7) by lia; symmetry; apply Z_mod_plus_full).
  replace ((i + 105) mod 3) with (i mod 3)
    by (replace (i + 105) with (i + 35 * 3) by lia; symmetry; apply Z_mod_plus_full).
  repeat split.
Qed.

(** X10: the series is periodic: records [i] and [i + 105] of a returned
    series hold the same apr, tvl and sui_price. *)
Theorem simulate_period (latest_data : pyval F) (days : Z) (df : DataFrame F) :
  simulate_historical_data env latest_data days = Some df ->
  List.length df = Z.to_nat days
  /\ forall i, 0 <= i -> i + 105 < days ->
       exists r r', nth_error df (Z.to_nat i) = Some r
                    /\ nth_error df (Z.to_nat (i + 105)) = Some r'
                    /\ apr r' = apr r /\ tvl r' = tvl r /\ sui_price r' = sui_price r.
Proof.
  intros E. destruct (simulate_some env latest_data days df E) as [t0 [a [v [p [_ ->]]]]].
  split; [rewrite length_map; apply range_length |].
  intros i H0 H1. exists (day_record t0 a v p i), (day_record t0 a v p (i + 105)).
  rewrite !nth_error_map, !range_nth by lia.
  repeat split; apply day_record_period.
Qed.

(** X11: a field missing from a snapshot that parses takes its default:
    the apr is 4.908 when the apy is absent from supplyIncentiveApyInfo,
    the tvl is 52969686454591258 / 1e9 when totalSupplyAmount is absent,
    the price is 4.34833514 when the price is absent from oracle. *)
Theorem snapshot_defaults (d : dict F) (t0 : datetime) (a v p : F) :
  snapshot_fields env (PyDict d) = Ok (t0, a, v, p) ->
  (forall info, dict_get d "supplyIncentiveApyInfo" (PyDict []) = PyDict info ->
                dict_mem info "apy" = false -> a = lit 4908 (-3))
  /\ (dict_mem d "totalSupplyAmount" = false -> v = (of_int 52969686454591258 / lit 1 9)%F)
  /\ (forall oracle, dict_get d "oracle" (PyDict []) = PyDict oracle ->
                     dict_mem oracle "price" = false -> p = lit 434833514 (-8)).
Proof.
  intros S. unfold snapshot_fields in S.
  repeat (apply bind_ok in S; destruct S as [? [? S]]).
  cbn [py_get] in *.
  repeat match goal with
         | X : Ok _ = Ok _ |- _ => injection X as X; subst
         end.
  repeat split.
  - intros info Ei M.
    match goal with
    | X : py_get (dict_get d "supplyIncentiveApyInfo" _) "apy" _ = Ok _ |- _ =>
        rewrite Ei in X; cbn [py_get] in X; rewrite (dict_get_absent info _ _ M) in X;
        injection X as <-
    end.
    match goal with X : py_float (PyFloat _) = Ok _ |- _ => cbn in X; congruence end.
  - intros M.
    match goal with
    | X : py_float (dict_get d "totalSupplyAmount" _) = Ok _ |- _ =>
        rewrite (dict_get_absent d _ _ M) in X; cbn [py_float] in X;
        unfold float_of_int in X; destruct (int_fits 52969686454591258);
        [injection X as <-; reflexivity | discriminate X]
    end.
  - intros oracle Eo M.
    match goal with
    | X : py_get (dict_get d "oracle" _) "price" _ = Ok _ |- _ =>
        rewrite Eo in X; cbn [py_get] in X; rewrite (dict_get_absent oracle _ _ M) in X;
        injection X as <-
    end.
    match goal with X : py_float (PyFloat _) = Ok _ |- _ => cbn in X; congruence end.
Qed.

(** X12: the generator fails on a snapshot that is not an object, and on
    one whose supplyIncentiveApyInfo or oracle is present but not an object
    (a JSON null, for instance): only an absent key takes the default. *)
Theorem simulate_needs_objects (latest_data : pyval F) (days : Z) :
  (is_dict latest_data = false
   \/ exists d, latest_data = PyDict d
                /\ (is_dict (dict_get d "supplyIncentiveApyInfo" (PyDict [])) = false
                    \/ is_dict (dict_get d "oracle" (PyDict [])) = false)) ->
  simulate_historical_data env latest_data days = None.
Proof.
  intros [N | [d [-> N]]]; unfold simulate_historical_data, snapshot_fields.
  - destruct latest_data; try discriminate N; reflexivity.
  - cbn [py_get bind].
    destruct (py_truediv _ _); cbn [bind]; [| reflexivity].
    destruct (ftrunc _); cbn [bind]; [| reflexivity].
    destruct (fromtimestamp _ _); cbn [bind]; [| reflexivity].
    destruct (dict_get d "supplyIncentiveApyInfo" (PyDict [])) eqn:I;
      cbn [py_get bind]; try reflexivity.
    destruct N as [N | N]; [discriminate N |].
    destruct (py_float _); cbn [bind]; [| reflexivity].
    destruct (py_float _); cbn [bind]; [| reflexivity].
    destruct (dict_get d "oracle" (PyDict [])); try discriminate N; reflexivity.
Qed.

End GeneratorMore.

Lemma simulate_period_witness :
  List.length (map (day_record 63835596800000000 (@lit float _ 4908 (-3))
                      (of_int 52969686454591258 / lit 1 9)%F (lit 434833514 (-8))) (range 120))
  = Z.to_nat 120
  /\ forall i, 0 <= i -> i + 105 < 120 ->
       exists r r',
         nth_error (map (day_record 63835596800000000 (@lit float _ 4908 (-3))
                           (of_int 52969686454591258 / lit 1 9)%F (lit 434833514 (-8)))
                      (range 120)) (Z.to_nat i) = Some r
         /\ nth_error (map (day_record 63835596800000000 (@lit float _ 4908 (-3))
                              (of_int 52969686454591258 / lit 1 9)%F (lit 434833514 (-8)))
                         (range 120)) (Z.to_nat (i + 105)) = Some r'
         /\ apr r' = apr r /\ tvl r' = tvl r /\ sui_price r' = sui_price r.
Proof.
  apply (simulate_period utc recent_snapshot 120). vm_compute. reflexivity.
Defined.

Lemma snapshot_defaults_witness :
  (forall info : dict float,
      dict_get recent_fields "supplyIncentiveApyInfo" (PyDict []) = PyDict info ->
      dict_mem info "apy" = false -> @lit float _ 4908 (-3) = lit 4908 (-3))
  /\ (dict_mem recent_fields "totalSupplyAmount" = false ->
      (of_int 52969686454591258 / lit 1 9)%F = (of_int 52969686454591258 / lit 1 9)%F :> float)
  /\ (forall oracle : dict float,
        dict_get recent_fields "oracle" (PyDict []) = PyDict oracle ->
        dict_mem oracle "price" = false -> @lit float _ 434833514 (-8) = lit 434833514 (-8)).
Proof.
  apply (snapshot_defaults utc recent_fields 63835596800000000).
  vm_compute. reflexivity.
Defined.

Lemma simulate_needs_objects_witness :
  @simulate_historical_data float _ utc
     (PyDict [("lastUpdateTimestamp", PyInt 1700000000000); ("oracle", PyNone)]) 30 = None.
Proof.
  apply simulate_needs_objects. right. eexists. split; [reflexivity |]. right. reflexivity.
Defined.

(** * Further properties of the rewards fetcher *)

Section RewardsMore.

Context {F : Type} `{FloatArith F}.

Lemma reward_selected_inv (pool_id : string) (reward : pyval F) (b : bool) :
  reward_selected pool_id reward = Ok b -> b = passes_filter pool_id reward.
Proof.
  unfold reward_selected, passes_filter. destruct reward; try discriminate.
  cbn [py_get bind].
  destruct (py_eq_str (dict_get d "pool" (PyStr "")) pool_id); cbn [andb].
  - destruct (dict_get d "coin_type" (PyStr "")); cbn [py_endswith]; try discriminate.
    intros E. injection E as <-. reflexivity.
  - intros E. injection E as <-. reflexivity.
Qed.

Lemma reward_record_inv (reward : pyval F) (r : RewardRecord F) :
  reward_record reward = Ok r -> record_of reward r.
Proof.
  unfold reward_record. destruct reward; try discriminate. cbn [py_get bind].
  destruct (py_float (dict_get d "amount" (PyInt 0))) as [a |] eqn:A; cbn [bind]; [| discriminate].
  destruct (py_float (dict_get d "token_price" _)) as [tp |] eqn:T; cbn [bind]; [| discriminate].
  intros E. injection E as <-. exists d, a, tp. cbn [amount token_price reward_timestamp].
  repeat split; try assumption.
  intros M. rewrite (dict_get_absent d "token_price" _ M) in T. cbn in T. congruence.
Qed.

Lemma collect_rewards_inv (pool_id : string) (data : list (pyval F)) (rs : list (RewardRecord F)) :
  collect_rewards pool_id data = Ok rs ->
  Forall2 record_of (filter (passes_filter pool_id) data) rs.
Proof.
  revert rs. induction data as [| reward data IH]; intros rs; cbn [collect_rewards filter].
  - intros E. injection E as <-. constructor.
  - intros E. apply bind_ok in E. destruct E as [sel [S E]].
    apply reward_selected_inv in S. rewrite <- S. destruct sel.
    + apply bind_ok in E. destruct E as [r [R E]].
      apply bind_ok in E. destruct E as [rs' [C E]]. injection E as <-.
      constructor; [apply reward_record_inv, R | apply IH, C].
    + apply IH, E.
Qed.

(** X14: on any array the rewards fetcher answers either the empty list or,
    in order, exactly one record for each reward that passes the filter. *)
Theorem rewards_all_or_nothing (data : list (pyval F)) (user_address pool_id : string) :
  fetch_rewards (Response 200 (Ok (PyList data))) user_address pool_id = ([], 200)
  \/ exists rewards,
       fetch_rewards (Response 200 (Ok (PyList data))) user_address pool_id = (rewards, 200)
       /\ Forall2 record_of (filter (passes_filter pool_id) data) rewards.
Proof.
  unfold fetch_rewards. cbn [Z.eqb Pos.eqb negb bind py_slice2 py_iter].
  destruct (collect_rewards pool_id data) as [rs |] eqn:C; [right | left; reflexivity].
  exists rs. split; [reflexivity | apply collect_rewards_inv, C].
Qed.

(** X15: in an array of objects the rewards of other pools are not looked
    at beyond their pool field: removing them does not change the answer. *)
Theorem rewards_other_pools_ignored (data : list (pyval F)) (user_address pool_id : string) :
  forallb is_dict data = true ->
  fetch_rewards (Response 200 (Ok (PyList data))) user_address pool_id
  = fetch_rewards (Response 200 (Ok (PyList (filter (of_pool pool_id) data)))) user_address pool_id.
Proof.
  intros D. unfold fetch_rewards. cbn [Z.eqb Pos.eqb negb bind py_slice2 py_iter].
  assert (E : collect_rewards pool_id data
              = collect_rewards pool_id (filter (of_pool pool_id) data)).
  { induction data as [| reward data IH]; [reflexivity |].
    cbn [forallb] in D. apply andb_true_iff in D. destruct D as [D1 D2].
    destruct reward; try discriminate D1.
    cbn [filter of_pool].
    destruct (py_eq_str (dict_get d "pool" (PyStr "")) pool_id) eqn:P.
    - cbn [collect_rewards]. rewrite (IH D2). reflexivity.
    - cbn [collect_rewards]. unfold reward_selected at 1. cbn [py_get bind]. rewrite P.
      cbn [bind]. exact (IH D2). }
  rewrite E. reflexivity.
Qed.

Lemma fetch_rewards_status (up : upstream F) (user_address pool_id : string) :
  snd (fetch_rewards up user_address pool_id) = 200.
Proof.
  unfold fetch_rewards. destruct up as [e | status json]; [reflexivity |].
  destruct (negb (status =? 200)); [reflexivity |].
  destruct (bind json _); reflexivity.
Qed.

(** X16: the endpoint /api/rewards answers 400 exactly when user_address is
    absent or empty, with the error body, and 200 otherwise. *)
Theorem rewards_endpoint_status (user_address : option string) (up : upstream F) :
  (snd (get_rewards user_address up) = 400
   <-> (user_address = None \/ user_address = Some ""))
  /\ (snd (get_rewards user_address up) = 400 \/ snd (get_rewards user_address up) = 200)
  /\ (snd (get_rewards user_address up) = 400 -> fst (get_rewards user_address up) = @RewardsError F).
Proof.
  unfold get_rewards. destruct user_address as [a |].
  - destruct (String.eqb a "") eqn:A.
    + apply String.eqb_eq in A. subst a. cbn. repeat split; auto.
    + pose proof (fetch_rewards_status up a REWARDS_POOL) as S.
      destruct (fetch_rewards up a REWARDS_POOL) as [rs st]. cbn [fst snd] in *. subst st.
      repeat split; try discriminate; auto.
      intros [E | E]; [discriminate E | injection E as ->; discriminate A].
  - cbn. repeat split; auto.
Qed.

End RewardsMore.

Lemma rewards_other_pools_ignored_witness :
  @fetch_rewards float _
     (Response 200 (Ok (PyList [navx_reward; PyDict [("pool", PyStr "q"); ("coin_type", PyNone)]])))
     "0xuser" "p"
  = fetch_rewards
     (Response 200 (Ok (PyList (filter (of_pool "p")
                                  [navx_reward; PyDict [("pool", PyStr "q"); ("coin_type", PyNone)]]))))
     "0xuser" "p".
Proof.
  apply rewards_other_pools_ignored. reflexivity.
Defined.

(** * Further properties of the predict endpoint *)

Section PredictEndpoint.

Context {F : Type} `{FloatArith F} (lib : LinearModels F).

Lemma validate_outcome (data : pyval F) :
  validate data predict_schema = Ok tt \/ validate data predict_schema = Raise ValidationError.
Proof.
  unfold validate. destruct data; auto.
  match goal with |- context [if ?c then _ else _] => destruct c end; auto.
Qed.

(** X17: the schema accepts exactly the objects in which apr, tvl and
    sui_price are all present and each is an int or a float (a bool, a
    str or null is refused). *)
Theorem validate_spec (data : pyval F) :
  validate data predict_schema = Ok tt
  <-> exists d, data = PyDict d
                /\ forall key, In key ["apr"; "tvl"; "sui_price"] ->
                     dict_mem d key = true
                     /\ ((exists z, dict_get d key PyNone = PyInt z)
                         \/ (exists x, dict_get d key PyNone = PyFloat x)).
Proof.
  split.
  - intros V. destruct data; try discriminate V. exists d. split; [reflexivity |].
    unfold validate in V.
    match type of V with (if ?c then _ else _) = _ => destruct c eqn:C; [| discriminate] end.
    apply andb_true_iff in C. destruct C as [P R]. cbn in P, R.
    repeat (apply andb_true_iff in R; destruct R as [? R]).
    repeat (apply andb_true_iff in P; destruct P as [? P]).
    intros key [<- | [<- | [<- | []]]];
      match goal with
      | M : dict_mem d ?k = true, T : (if dict_mem d ?k then _ else _) = true
        |- context [dict_get d ?k PyNone] =>
          rewrite M in T; split; [exact M |];
          destruct (dict_get d k PyNone); try discriminate T; eauto
      end.
  - intros [d [-> K]]. unfold validate.
    assert (A : forall key, In key ["apr"; "tvl"; "sui_price"] ->
                dict_mem d key = true /\ has_type JNumber (dict_get d key PyNone) = true).
    { intros key Hk. destruct (K key Hk) as [M [[z E] | [x E]]]; rewrite E; auto. }
    destruct (A "apr") as [Ma Ta]; [cbn; auto |].
    destruct (A "tvl") as [Mt Tt]; [cbn; auto |].
    destruct (A "sui_price") as [Mp Tp]; [cbn; auto |].
    cbn [predict_schema properties required forallb fst snd].
    rewrite Ma, Mt, Mp, Ta, Tt, Tp. reflexivity.
Qed.

(** X18: a decoded body that the schema refuses is answered 400 with the
    invalid-input error. *)
Theorem predict_endpoint_rejects (data : pyval F) :
  validate data predict_schema <> Ok tt ->
  predict (Ok data) = (PredictInvalid, 400).
Proof.
  intros V. unfold predict. cbn [bind].
  destruct (py_truthy data); cbn [negb bind]; [| reflexivity].
  destruct (validate_outcome data) as [E | E]; [contradiction | rewrite E; reflexivity].
Qed.

Lemma predict_decoded (data : pyval F) :
  predict (Ok data) = (Prediction false, 200) \/ predict (Ok data) = (PredictInvalid, 400).
Proof.
  destruct (validate_outcome data) as [V | V].
  - left. destruct (validate_accepts data V) as [d [-> [Ha [Ht Hp]]]].
    unfold predict. cbn [bind].
    assert (T : py_truthy (PyDict d) = true) by (destruct d; [discriminate Ha | reflexivity]).
    rewrite T. cbn [negb bind]. rewrite V. cbn [bind].
    unfold py_getitem. rewrite Ha, Ht, Hp. reflexivity.
  - right. apply predict_endpoint_rejects. congruence.
Qed.

(** X19: the endpoint /api/predict never answers predict = True; its
    status is 200, 400 or 500, and 500 only when decoding the request
    raised something other than a ValidationError. *)
Theorem predict_endpoint_never_true (body : result (pyval F)) :
  fst (predict body) <> Prediction true
  /\ (snd (predict body) = 200 \/ snd (predict body) = 400 \/ snd (predict body) = 500)
  /\ (snd (predict body) = 500 -> exists e, body = Raise e /\ e <> ValidationError).
Proof.
  destruct body as [data | e].
  - destruct (predict_decoded data) as [E | E]; rewrite E; cbn;
      repeat split; auto; discriminate.
  - unfold predict. destruct e; cbn; repeat split; auto; try discriminate;
      intros _; eexists; (split; [reflexivity | discriminate]).
Qed.

End PredictEndpoint.

Lemma predict_endpoint_rejects_witness :
  @predict Q _ _ (Ok incomplete_request) = (PredictInvalid, 400).
Proof.
  apply predict_endpoint_rejects. discriminate.
Defined.
